(** * StaticKit standalone forms: a shallow embedding of [src/forms.js]

    The module binds an HTML form to a remote endpoint.  Its functions are
    translated one by one: the default hooks ([onSuccess], [enable],
    [disable], [renderErrors]), the submission lifecycle [submit], the binder
    ([setup], [getFormElement], [init]).

    JavaScript effects are made explicit: a program is a function from a
    [State] to a result that either returns or throws, and the state holds
    the DOM, the user's own state, and the record of every call the module
    makes to a hook, to the HTTP client or to the logger. *)

From Stdlib Require Import ZArith String Ascii List Bool Lia.
From stdpp Require Import base option list gmap strings pretty.

Set Warnings "-register-all,-clear-no-such-hyp".

Local Open Scope Z_scope.
Local Open Scope string_scope.
Local Open Scope list_scope.

(** ** JavaScript values *)

Abbreviation NodeId := nat.

(** The values that cross the module's boundary: the [data] option and its
    entries, what user functions return and throw, what is appended to the
    form data.  [VObj] lists the own enumerable properties in [for...in]
    order; [VFun n] is the user function number [n]; [VNode n] is a reference
    to a DOM node; [VError msg] is an [Error] object. *)
Inductive JsVal : Type :=
| VUndef
| VNull
| VBool (b : bool)
| VNum (n : Z)
| VStr (s : string)
| VObj (props : list (string * JsVal))
| VFun (f : nat)
| VNode (n : NodeId)
| VError (msg : string).

(** [typeof v]. *)
Definition typeof (v : JsVal) : string :=
  match v with
  | VUndef => "undefined"
  | VNull => "object"
  | VBool _ => "boolean"
  | VNum _ => "number"
  | VStr _ => "string"
  | VObj _ => "object"
  | VFun _ => "function"
  | VNode _ => "object"
  | VError _ => "object"
  end.

(** The properties [for (const prop in v)] visits, with their values.
    Nothing is visited for [null]; the enumerable properties of host objects
    (DOM nodes, errors) are not modelled. *)
Definition for_in (v : JsVal) : list (string * JsVal) :=
  match v with
  | VObj props => props
  | _ => []
  end.

(** [a || b] on an optional string: [undefined] and the empty string are
    falsy. *)
Definition str_or (a : option string) (b : string) : string :=
  match a with
  | Some s => if String.eqb s "" then b else s
  | None => b
  end.

(** [!a] on an optional string. *)
Definition falsy_str (a : option string) : bool :=
  match a with
  | Some s => String.eqb s ""
  | None => true
  end.

(** Lower case and upper case of the ASCII letters: what selectors use to
    compare the value of a [type] attribute, and what [h] does to a tag
    name. *)
Definition lower_ascii (c : ascii) : ascii :=
  let n := nat_of_ascii c in
  if (Nat.leb 65 n && Nat.leb n 90)%bool then ascii_of_nat (n + 32) else c.

Fixpoint ascii_toLowerCase (s : string) : string :=
  match s with
  | EmptyString => EmptyString
  | String c r => String (lower_ascii c) (ascii_toLowerCase r)
  end.

Definition upper_ascii (c : ascii) : ascii :=
  let n := nat_of_ascii c in
  if (Nat.leb 97 n && Nat.leb n 122)%bool then ascii_of_nat (n - 32) else c.

Fixpoint toUpperCase (s : string) : string :=
  match s with
  | EmptyString => EmptyString
  | String c r => String (upper_ascii c) (toUpperCase r)
  end.

(** ** The data model of the module *)

(** A field error of a response body: [{field, code, message}].  The code
    guards a missing [code] with [error.code || '']. *)
Record FieldError := {
  field : string;
  code : option string;
  message : string
}.

(** An entry of the [fields] option: [{prettyName, errorMessages}], both
    optional. *)
Record FieldConfig := {
  prettyName : option string;
  errorMessages : option (gmap string string)
}.

(** The body of a response: its [errors] and its other properties. *)
Record Body := {
  errors : list FieldError;
  payload : list (string * JsVal)
}.

Record Response := { status : Z }.

(** What [client.submitForm] resolves with: [{response: {status}, body}]. *)
Record Result := {
  response : Response;
  body : Body
}.

(** How an asynchronous call settles. *)
Inductive Settled : Type :=
| Resolved (r : Result)
| Rejected (e : JsVal).

(** How a call of a user function completes. *)
Inductive Completion : Type :=
| Normal (v : JsVal)
| Abrupt (e : JsVal).

(** A function held by the configuration: the module's own default for that
    entry, or the user's function number [n]. *)
Inductive Fn : Type :=
| Default
| Custom (n : nat).

(** The configuration built by [init]: [Object.assign({}, defaults, props,
    {form})]. *)
Record Config := {
  id : string;
  form : NodeId;
  endpoint : string;
  data : JsVal;
  fields : gmap string FieldConfig;
  h : Fn;
  onInit : Fn;
  onSubmit : Fn;
  onSuccess : Fn;
  onError : Fn;
  onFailure : Fn;
  enable : Fn;
  disable : Fn;
  renderErrors : Fn
}.

(** The argument of [getFormElement], typed by the source's own annotation
    [@param {Element|String} nodeOrSelector]. *)
Inductive NodeOrSelector : Type :=
| Node (n : NodeId)
| Selector (s : string).

(** The [props] given to [init]; [None] is a missing property. *)
Record Props := {
  p_id : option string;
  p_element : option NodeOrSelector;
  p_endpoint : option string;
  p_data : option JsVal;
  p_fields : option (gmap string FieldConfig);
  p_h : option nat;
  p_onInit : option nat;
  p_onSubmit : option nat;
  p_onSuccess : option nat;
  p_onError : option nat;
  p_onFailure : option nat;
  p_enable : option nat;
  p_disable : option nat;
  p_renderErrors : option nat
}.

(** ** The DOM *)

(** The listener [setup] registers: the closure over [client] and [config]. *)
Inductive Listener : Type :=
| SubmitListener (config : Config).

(** A DOM element, with what the module reads and writes of it.
    [dataset_skError] is the [data-sk-error] attribute, [typeAttr] the [type]
    attribute, [disabled] the [disabled] attribute, [control] the name and
    value a form control contributes to the form data.  [innerHTML] is the
    markup last assigned to the property, which the module writes and never
    reads; what reading it gives back, the content serialised again, is not
    modelled. *)
Record Element := {
  tagName : string;
  toStringTag : string;
  parentNode : option NodeId;
  dataset_skError : option string;
  typeAttr : option string;
  disabled : bool;
  control : option (string * string);
  innerHTML : string;
  submitListeners : list Listener
}.

(** The nodes of the page, in document order; a [NodeId] is a position.
    Nodes made later ([h]) are added at the end, detached. *)
Abbreviation Dom := (list Element).

Definition set_parentNode (p : option NodeId) (e : Element) : Element :=
  {| tagName := tagName e; toStringTag := toStringTag e; parentNode := p;
     dataset_skError := dataset_skError e; typeAttr := typeAttr e;
     disabled := disabled e; control := control e; innerHTML := innerHTML e;
     submitListeners := submitListeners e |}.

Definition set_disabled (b : bool) (e : Element) : Element :=
  {| tagName := tagName e; toStringTag := toStringTag e;
     parentNode := parentNode e;
     dataset_skError := dataset_skError e; typeAttr := typeAttr e;
     disabled := b; control := control e; innerHTML := innerHTML e;
     submitListeners := submitListeners e |}.

Definition set_innerHTML (html : string) (e : Element) : Element :=
  {| tagName := tagName e; toStringTag := toStringTag e;
     parentNode := parentNode e;
     dataset_skError := dataset_skError e; typeAttr := typeAttr e;
     disabled := disabled e; control := control e; innerHTML := html;
     submitListeners := submitListeners e |}.

Definition add_listener (l : Listener) (e : Element) : Element :=
  {| tagName := tagName e; toStringTag := toStringTag e;
     parentNode := parentNode e;
     dataset_skError := dataset_skError e; typeAttr := typeAttr e;
     disabled := disabled e; control := control e; innerHTML := innerHTML e;
     submitListeners := submitListeners e ++ [l] |}.

(** [update n f d] applies [f] to node [n]; nothing happens when [n] is not a
    node of [d]. *)
Definition update (n : NodeId) (f : Element -> Element) (d : Dom) : Dom :=
  match d !! n with
  | Some e => <[n := f e]> d
  | None => d
  end.

(** [ancestor d fuel a n]: [a] is reached from [n] by following [parentNode]
    at most [fuel] times. *)
Fixpoint ancestor (d : Dom) (fuel : nat) (a n : NodeId) : bool :=
  match fuel with
  | O => false
  | S k =>
      match d !! n ≫= parentNode with
      | Some p => Nat.eqb p a || ancestor d k a p
      | None => false
      end
  end.

(** [root.contains(n)] for [n] other than [root]. *)
Definition descendant (d : Dom) (root n : NodeId) : bool :=
  ancestor d (length d) root n.

(** The three selectors the module gives to [querySelectorAll]. *)
Inductive Sel : Type :=
| sel_sk_error          (* [data-sk-error] *)
| sel_submit_disabled   (* [type='submit']:disabled *)
| sel_submit_enabled.   (* [type='submit']:enabled *)

(** [[type='submit']]: the element has a [type] attribute whose value is
    "submit".  In an HTML document the values of [type] are compared without
    regard to the case of the ASCII letters. *)
Definition is_submit (e : Element) : bool :=
  match typeAttr e with
  | Some t => String.eqb (ascii_toLowerCase t) "submit"
  | None => false
  end.

Definition tag_in (tags : list string) (e : Element) : bool :=
  existsb (String.eqb (tagName e)) tags.

(** The elements that [:enabled] and [:disabled] tell apart; the others
    match neither.  For these the [disabled] property is the [disabled]
    attribute. *)
Definition can_be_disabled (e : Element) : bool :=
  tag_in ["BUTTON"; "INPUT"; "SELECT"; "TEXTAREA"; "OPTGROUP"; "OPTION"; "FIELDSET"] e.

(** The first [legend] child of the node [f]. *)
Definition first_legend (d : Dom) (f : NodeId) : option NodeId :=
  List.find (fun n =>
               match d !! n with
               | Some e => bool_decide (parentNode e = Some f)
                           && String.eqb (tagName e) "LEGEND"
               | None => false
               end)
            (seq 0 (length d)).

(** [n] is inside a [fieldset] that has the [disabled] attribute, and not
    inside the first [legend] child of that [fieldset]. *)
Fixpoint in_disabled_fieldset (d : Dom) (fuel : nat) (n : NodeId) : bool :=
  match fuel with
  | O => false
  | S k =>
      match d !! n ≫= parentNode with
      | Some p =>
          match d !! p with
          | Some f => String.eqb (tagName f) "FIELDSET" && disabled f
                      && negb (bool_decide (first_legend d p = Some n))
          | None => false
          end
          || in_disabled_fieldset d k p
      | None => false
      end
  end.

(** The element [e], node [n], is disabled by another element: a [button],
    [input], [select], [textarea] or [fieldset] by a disabled [fieldset]
    around it, an [option] by a disabled [optgroup] that is its parent. *)
Definition disabled_by_ancestor (d : Dom) (n : NodeId) (e : Element) : bool :=
  if tag_in ["BUTTON"; "INPUT"; "SELECT"; "TEXTAREA"; "FIELDSET"] e
  then in_disabled_fieldset d (length d) n
  else if String.eqb (tagName e) "OPTION"
  then match parentNode e ≫= (fun p => d !! p) with
       | Some g => String.eqb (tagName g) "OPTGROUP" && disabled g
       | None => false
       end
  else false.

(** [:disabled] matches [e]. *)
Definition actually_disabled (d : Dom) (n : NodeId) (e : Element) : bool :=
  can_be_disabled e && (disabled e || disabled_by_ancestor d n e).

Definition matches (d : Dom) (n : NodeId) (sel : Sel) (e : Element) : bool :=
  match sel with
  | sel_sk_error => bool_decide (is_Some (dataset_skError e))
  | sel_submit_disabled => is_submit e && actually_disabled d n e
  | sel_submit_enabled =>
      is_submit e && can_be_disabled e && negb (actually_disabled d n e)
  end.

Definition selected (d : Dom) (root : NodeId) (sel : Sel) (n : NodeId) : bool :=
  descendant d root n &&
  match d !! n with
  | Some e => matches d n sel e
  | None => false
  end.

(** [root.querySelectorAll(sel)]: the descendants of [root] that match, in
    document order.  The list is static. *)
Definition querySelectorAll (d : Dom) (root : NodeId) (sel : Sel) : list NodeId :=
  List.filter (selected d root sel) (seq 0 (length d)).

(** ** Calls and their record *)

(** What is passed to a function. *)
Inductive Arg : Type :=
| AConfig (c : Config)
| AErrors (l : list FieldError)
| ABody (b : Body)
| AVal (v : JsVal).

(** The call expressions of the module: one per hook, [h(...)] in the default
    success callback, and [data[prop].call(null, config)]. *)
Inductive Site : Type :=
| at_onInit | at_onSubmit | at_onSuccess | at_onError | at_onFailure
| at_enable | at_disable | at_renderErrors | at_h
| at_data (prop : string).

#[global] Instance Site_eq_dec : EqDecision Site.
Proof. solve_decision. Defined.

(** The argument of [client.submitForm]: [{id, endpoint, data}]. *)
Record Request := {
  req_id : string;
  req_endpoint : string;
  req_data : list (string * JsVal)
}.

(** What the module does to the outside, in order. *)
Inductive Event : Type :=
| Call (site : Site) (f : Fn) (args : list Arg)
| SubmitForm (req : Request)
| PreventDefault.

(** What [document.querySelector] answers: a node, [null], or an exception
    (a selector that does not parse). *)
Inductive Lookup : Type :=
| found (n : option NodeId)
| invalid (e : JsVal).

(** The page: the DOM, and the state that belongs to the user's code, as one
    value. *)
Record World := {
  dom : Dom;
  ext : JsVal
}.

(** ** What the host provides

    The parts of JavaScript the module relies on and that are not computed
    here; the statements hold for every host.

    [toLowerCase] is [String.prototype.toLowerCase], which lower-cases the
    letters of every alphabet.

    [Object_prototype key] is the member of [Object.prototype] named [key],
    given as the string it converts to ([constructor], [toString],
    [valueOf], ... convert to the text of a function), and [None] when
    [Object.prototype] has no such member.  Every plain object inherits these
    members: [o[key]] finds them when [o] has no property [key] of its own.
    They are objects, hence truthy.

    [exotic_ToString v] is [String(v)] for the values whose conversion is
    not computed by [ToString] below: the text of a function, an error, a
    number beyond the integers that are printed digit by digit, an object
    that brings its own conversion. *)
Class Host := {
  toLowerCase : string -> string;
  Object_prototype : string -> option string;
  exotic_ToString : JsVal -> string
}.

(** ** Programs *)

Record State := {
  world : World;
  calls : list Event;
  diag : list (string * string)
}.

Inductive Res (A : Type) : Type :=
| Ret (a : A) (s : State)
| Throw (e : JsVal) (s : State).
Arguments Ret {A} a s.
Arguments Throw {A} e s.

Definition M (A : Type) : Type := State -> Res A.

Definition ret {A} (a : A) : M A := fun s => Ret a s.

Definition throw {A} (e : JsVal) : M A := fun s => Throw e s.

Definition bind {A B} (m : M A) (k : A -> M B) : M B :=
  fun s =>
    match m s with
    | Ret a s' => k a s'
    | Throw e s' => Throw e s'
    end.

Notation "x <- m ;; k" := (bind m (fun x => k))
  (at level 100, m at next level, right associativity).
Notation "m ;; k" := (bind m (fun _ => k))
  (at level 100, right associativity).

(** [try { body } catch (e) { handler e }]. *)
Definition try_catch {A} (body : M A) (handler : JsVal -> M A) : M A :=
  fun s =>
    match body s with
    | Ret a s' => Ret a s'
    | Throw e s' => handler e s'
    end.

(** [try { body } finally { fin }]: [fin] runs on both exits; if it throws,
    its exception replaces the outcome of [body]. *)
Definition try_finally {A B} (body : M A) (fin : M B) : M A :=
  fun s =>
    match body s with
    | Ret a s' =>
        match fin s' with
        | Ret _ s'' => Ret a s''
        | Throw e s'' => Throw e s''
        end
    | Throw e s' =>
        match fin s' with
        | Ret _ s'' => Throw e s''
        | Throw e' s'' => Throw e' s''
        end
    end.

(** [array.forEach(f)]. *)
Fixpoint forEach {A} (l : list A) (f : A -> M unit) : M unit :=
  match l with
  | [] => ret tt
  | x :: r => f x ;; forEach r f
  end.

Definition get_dom : M Dom := fun s => Ret (dom (world s)) s.

Definition set_dom (d : Dom) (s : State) : State :=
  {| world := {| dom := d; ext := ext (world s) |};
     calls := calls s; diag := diag s |}.

Definition modify_dom (f : Dom -> Dom) : M unit :=
  fun s => Ret tt (set_dom (f (dom (world s))) s).

Definition record (ev : Event) : M unit :=
  fun s => Ret tt {| world := world s; calls := calls s ++ [ev]; diag := diag s |}.

(** Modelled from the spec: [./logger] is not under [src/]; the outcomes are
    "logged to an external diagnostic sink with the form identifier".
    [logger('forms').log(id, msg, ...)] adds a line to the sink. *)
Definition logger_log (ident msg : string) : M unit :=
  fun s => Ret tt {| world := world s; calls := calls s;
                     diag := diag s ++ [(ident, msg)] |}.

Definition TypeError (msg : string) : JsVal := VError ("TypeError: " +:+ msg).

Section Forms.

Context {host : Host}.

(** [toCamel] of [./utils], which is not under [src/]. *)
Variable toCamel : string -> string.

(** The user's functions, by number: hooks given in [props] and function
    entries of [data].  They read and change the page as they like. *)
Variable user : nat -> list Arg -> World -> Completion * World.

(** The HTTP client.  While the call is awaited, the page may change. *)
Variable client_submitForm : Request -> World -> Settled * World.

(** [document.querySelector], on the string its argument converts to. *)
Variable document_querySelector : Dom -> string -> Lookup.

(** Running the user's function [n]. *)
Definition run_user (n : nat) (args : list Arg) : M JsVal :=
  fun s =>
    let '(c, w) := user n args (world s) in
    let s' := {| world := w; calls := calls s; diag := diag s |} in
    match c with
    | Normal v => Ret v s'
    | Abrupt e => Throw e s'
    end.

(** A call [f(args)] at [site], where [f] is either the user's function or
    the module's default [dflt]. *)
Definition call (site : Site) (f : Fn) (args : list Arg) (dflt : M JsVal) : M JsVal :=
  record (Call site f args) ;;
  match f with
  | Custom n => run_user n args
  | Default => dflt
  end.

(** ** DOM operations *)

(** [root.querySelectorAll(sel)]. *)
Definition node_querySelectorAll (root : NodeId) (sel : Sel) : M (list NodeId) :=
  d <- get_dom ;; ret (querySelectorAll d root sel).

(** [element.dataset.skError]. *)
Definition get_skError (n : NodeId) : M (option string) :=
  d <- get_dom ;; ret (d !! n ≫= dataset_skError).

(** [element.innerHTML = html].  The assignment also replaces the children
    of the element: those it had are detached, and markup in [html] makes new
    ones.  The pages here keep text only in an element that is assigned to;
    of elements inside it the model says nothing, and the statements about
    the page after an assignment are about the other nodes. *)
Definition assign_innerHTML (n : NodeId) (html : string) : M unit :=
  modify_dom (update n (set_innerHTML html)).

(** [button.disabled = b]. *)
Definition assign_disabled (n : NodeId) (b : bool) : M unit :=
  modify_dom (update n (set_disabled b)).

(** [node.parentNode]. *)
Definition get_parentNode (n : NodeId) : M (option NodeId) :=
  d <- get_dom ;; ret (d !! n ≫= parentNode).

(** [parent.replaceChild(replacement, child)], for a [child] of [parent]:
    [child] is detached and [replacement] takes its place.  A [replacement]
    that is not a node is a [TypeError]. *)
Definition replaceChild (parent : NodeId) (replacement : JsVal) (child : NodeId) : M unit :=
  match replacement with
  | VNode r =>
      modify_dom (fun d =>
        update r (set_parentNode (Some parent))
          (update child (set_parentNode None) d))
  | _ => throw (TypeError "parameter 1 is not of type 'Node'")
  end.

(** [form.addEventListener('submit', listener)]. *)
Definition addEventListener (n : NodeId) (l : Listener) : M unit :=
  modify_dom (update n (add_listener l)).

(** The entries of [new FormData(form)]: the controls inside the form that
    are not disabled, in document order. *)
Definition form_entries (d : Dom) (root : NodeId) : list (string * JsVal) :=
  omap (fun n =>
          if descendant d root n then
            match d !! n with
            | Some e =>
                if disabled e || in_disabled_fieldset d (length d) n then None
                else match control e with
                     | Some (name, value) => Some (name, VStr value)
                     | None => None
                     end
            | None => None
            end
          else None)
       (seq 0 (length d)).

(** [new FormData(form)]; the constructor refuses what is not a form
    element. *)
Definition new_FormData (n : NodeId) : M (list (string * JsVal)) :=
  d <- get_dom ;;
  match d !! n with
  | Some e =>
      if String.eqb (tagName e) "FORM" then ret (form_entries d n)
      else throw (TypeError "parameter 1 is not of type 'HTMLFormElement'")
  | None => throw (TypeError "parameter 1 is not of type 'HTMLFormElement'")
  end.

(** [String(v)].  An integer up to [2^53] in magnitude is printed digit by
    digit; a plain object without a conversion of its own is
    "[object Object]"; a DOM node is "[object ...]" with its class name; the
    rest is left to the host.  An object is taken not to run code of the
    user's when it is converted. *)
Definition ToString (d : Dom) (v : JsVal) : string :=
  match v with
  | VUndef => "undefined"
  | VNull => "null"
  | VBool b => if b then "true" else "false"
  | VNum n => if Z.leb (Z.abs n) (2 ^ 53) then pretty n else exotic_ToString v
  | VStr s => s
  | VObj props =>
      if existsb (fun p : string * JsVal =>
                    String.eqb (fst p) "toString" || String.eqb (fst p) "valueOf"
                    || String.eqb (fst p) "__proto__") props
      then exotic_ToString v
      else "[object Object]"
  | VNode n =>
      match d !! n with
      | Some e => "[object " +:+ toStringTag e +:+ "]"
      | None => exotic_ToString v
      end
  | VFun _ | VError _ => exotic_ToString v
  end.

(** [formData.append(name, value)]: what is stored is the string [value]
    converts to ([value] is no [Blob] here). *)
Definition FormData_append (formData : list (string * JsVal)) (name : string)
    (value : JsVal) : M (list (string * JsVal)) :=
  d <- get_dom ;;
  ret (formData ++ [(name, VStr (ToString d value))]).

(** [h(tag, {}, text)] of the hyperscript package: a new detached element
    with the text as its content. *)
Definition hyperscript (tag text : string) : M JsVal :=
  d <- get_dom ;;
  modify_dom (fun d =>
    d ++ [{| tagName := toUpperCase tag; toStringTag := "HTMLElement";
             parentNode := None; dataset_skError := None; typeAttr := None;
             disabled := false; control := None; innerHTML := text;
             submitListeners := [] |}]) ;;
  ret (VNode (length d)).

(** ** The default hooks *)

(** The default init callback. *)
Definition default_onInit (_config : Config) : M JsVal := ret VUndef.

(** The default submit callback. *)
Definition default_onSubmit (_config : Config) : M JsVal := ret VUndef.

(** The default success callback. *)
Definition default_onSuccess (config : Config) (_resp : Body) : M JsVal :=
  let h := h config in
  let form := form config in
  replacement <-
    call at_h h [AVal (VStr "div"); AVal (VObj []); AVal (VStr "Thank you!")]
      (hyperscript "div" "Thank you!") ;;
  parent <- get_parentNode form ;;
  match parent with
  | Some p => replaceChild p replacement form ;; ret VUndef
  | None => throw (TypeError "Cannot read property 'replaceChild' of null")
  end.

(** The default error callback. *)
Definition default_onError (_config : Config) (_errors : list FieldError) : M JsVal :=
  ret VUndef.

(** The default failure callback. *)
Definition default_onFailure (_config : Config) : M JsVal := ret VUndef.

(** The default enable hook. *)
Definition default_enable (config : Config) : M JsVal :=
  buttons <- node_querySelectorAll (form config) sel_submit_disabled ;;
  forEach buttons (fun button => assign_disabled button false) ;;
  ret VUndef.

(** The default disable hook. *)
Definition default_disable (config : Config) : M JsVal :=
  buttons <- node_querySelectorAll (form config) sel_submit_enabled ;;
  forEach buttons (fun button => assign_disabled button true) ;;
  ret VUndef.

(** [messages[key] || otherwise], for a plain object [messages] whose own
    properties are strings, given as the string the result converts to when
    it is assigned to [innerHTML].  A property of its own is found first, and
    the empty string is falsy; without one, the member of [Object.prototype]
    of that name is found, if there is one. *)
Definition member_or (messages : gmap string string) (key otherwise : string) : string :=
  match messages !! key with
  | Some own => if String.eqb own "" then otherwise else own
  | None => default otherwise (Object_prototype key)
  end.

(** The message the default error rendering hook writes for [error].
    [config.fields[error.field]] may find a member of [Object.prototype]
    too; such a member has no [errorMessages] and no [prettyName], and what
    follows is as for a field that is not configured. *)
Definition fullMessage (config : Config) (error : FieldError) : string :=
  let fieldConfig :=
    default {| prettyName := None; errorMessages := None |}
            (fields config !! field error) in
  let errorMessages := default ∅ (errorMessages fieldConfig) in
  let prefix := str_or (prettyName fieldConfig) "This field" in
  let code := toCamel (toLowerCase (str_or (code error) "")) in
  member_or errorMessages code (prefix +:+ " " +:+ message error).

(** The default error rendering hook. *)
Definition default_renderErrors (config : Config) (errors : list FieldError) : M JsVal :=
  elements <- node_querySelectorAll (form config) sel_sk_error ;;
  let errorFor (field' : option string) :=
    List.find (fun error => bool_decide (Some (field error) = field')) errors in
  forEach elements (fun element =>
    skError <- get_skError element ;;
    match errorFor skError with
    | None => assign_innerHTML element ""
    | Some error => assign_innerHTML element (fullMessage config error)
    end) ;;
  ret VUndef.

(** ** Calling the functions of a configuration

    [f] is the function value found where the call is written: an entry of
    the configuration, or a name of the module. *)

Definition call_onInit (f : Fn) (config : Config) : M JsVal :=
  call at_onInit f [AConfig config] (default_onInit config).

Definition call_onSubmit (f : Fn) (config : Config) : M JsVal :=
  call at_onSubmit f [AConfig config] (default_onSubmit config).

Definition call_onSuccess (f : Fn) (config : Config) (resp : Body) : M JsVal :=
  call at_onSuccess f [AConfig config; ABody resp] (default_onSuccess config resp).

Definition call_onError (f : Fn) (config : Config) (errors : list FieldError) : M JsVal :=
  call at_onError f [AConfig config; AErrors errors] (default_onError config errors).

Definition call_onFailure (f : Fn) (config : Config) (e : JsVal) : M JsVal :=
  call at_onFailure f [AConfig config; AVal e] (default_onFailure config).

Definition call_enable (f : Fn) (config : Config) : M JsVal :=
  call at_enable f [AConfig config] (default_enable config).

Definition call_disable (f : Fn) (config : Config) : M JsVal :=
  call at_disable f [AConfig config] (default_disable config).

Definition call_renderErrors (f : Fn) (config : Config) (errors : list FieldError) : M JsVal :=
  call at_renderErrors f [AConfig config; AErrors errors]
       (default_renderErrors config errors).

(** ** Submitting *)

(** [await client.submitForm(req)]: a rejection is thrown where the call is
    awaited. *)
Definition await_submitForm (req : Request) : M Result :=
  record (SubmitForm req) ;;
  fun s =>
    let '(r, w) := client_submitForm req (world s) in
    let s' := {| world := w; calls := calls s; diag := diag s |} in
    match r with
    | Resolved result => Ret result s'
    | Rejected e => Throw e s'
    end.

(** The loop [for (const prop in data)] of [submit]: a function entry is
    called with [null] as [this] and the configuration as argument, and what
    it returns is given to [formData.append]; any other entry is given to it
    as it is. *)
Fixpoint append_data (config : Config) (entries : list (string * JsVal))
    (formData : list (string * JsVal)) : M (list (string * JsVal)) :=
  match entries with
  | [] => ret formData
  | (prop, VFun n) :: rest =>
      v <- call (at_data prop) (Custom n) [AConfig config] (ret VUndef) ;;
      formData <- FormData_append formData prop v ;;
      append_data config rest formData
  | (prop, v) :: rest =>
      formData <- FormData_append formData prop v ;;
      append_data config rest formData
  end.

(** Submits the form. *)
Definition submit (config : Config) : M unit :=
  let id := id config in
  let form := form config in
  let enable := enable config in
  let disable := disable config in
  let renderErrors := renderErrors config in
  let onSubmit := onSubmit config in
  let onSuccess := onSuccess config in
  let onError := onError config in
  let endpoint := endpoint config in
  let data := data config in
  formData <- new_FormData form ;;
  (* Append data from config *)
  formData <-
    (if String.eqb (typeof data) "object"
     then append_data config (for_in data) formData
     else ret formData) ;;
  (* Clear visible errors before submitting *)
  call_renderErrors renderErrors config [] ;;
  call_disable disable config ;;
  call_onSubmit onSubmit config ;;
  logger_log id "Submitting" ;;
  try_finally
    (try_catch
       (result <- await_submitForm
                    {| req_id := id; req_endpoint := endpoint;
                       req_data := formData |} ;;
        if Z.eqb (status (response result)) 200 then
          logger_log id "Submitted" ;;
          call_onSuccess onSuccess config (body result) ;;
          ret tt
        else
          let errors := errors (body result) in
          logger_log id "Validation error" ;;
          call_renderErrors renderErrors config errors ;;
          call_onError onError config errors ;;
          ret tt)
       (fun e =>
          logger_log id "Unexpected error" ;;
          (* [onFailure] is not among the names taken from [config] above:
             here it is the default failure callback of the module *)
          call_onFailure Default config e ;;
          ret tt))
    (call_enable enable config).

(** ** Binding *)

(** The listener of [setup], run on a submit event. *)
Definition run_listener (l : Listener) : M bool :=
  match l with
  | SubmitListener config =>
      record PreventDefault ;;
      submit config ;;
      ret true
  end.

(** Setup the form. *)
Definition setup (config : Config) : M bool :=
  let id := id config in
  let form := form config in
  let onInit := onInit config in
  let enable := enable config in
  logger_log id "Initializing" ;;
  addEventListener form (SubmitListener config) ;;
  call_enable enable config ;;
  call_onInit onInit config ;;
  ret true.

(** [nodeOrSelector.tagName]: a string has none. *)
Definition get_tagName (d : Dom) (v : NodeOrSelector) : option string :=
  match v with
  | Node n => tagName <$> d !! n
  | Selector _ => None
  end.

(** The string [v] converts to. *)
Definition toString (d : Dom) (v : NodeOrSelector) : string :=
  match v with
  | Selector s => s
  | Node n =>
      match d !! n with
      | Some e => "[object " +:+ toStringTag e +:+ "]"
      | None => "[object Object]"
      end
  end.

(** [nodeOrSelector.tagName == tag]. *)
Definition tagName_is (d : Dom) (v : NodeOrSelector) (tag : string) : bool :=
  match get_tagName d v with
  | Some t => String.eqb t tag
  | None => false
  end.

(** [document.querySelector(v)]. *)
Definition querySelector (v : NodeOrSelector) : M (option NodeId) :=
  d <- get_dom ;;
  match document_querySelector d (toString d v) with
  | found r => ret r
  | invalid e => throw e
  end.

(** Look up the form element by selector or accept the given element.  The
    result is [None] for [null].  Only a node has a [tagName], so what is
    returned as it is is a node. *)
Definition getFormElement (nodeOrSelector : NodeOrSelector) : M (option NodeId) :=
  d <- get_dom ;;
  if tagName_is d nodeOrSelector "FORM" then
    match nodeOrSelector with
    | Node n => ret (Some n)
    | Selector _ => ret None
    end
  else
    querySelector nodeOrSelector.

(** [!props.element]. *)
Definition falsy_element (el : option NodeOrSelector) : bool :=
  match el with
  | None => true
  | Some (Selector s) => String.eqb s ""
  | Some (Node _) => false
  end.

Definition from_props (f : option nat) : Fn :=
  match f with
  | Some n => Custom n
  | None => Default
  end.

(** [Object.assign({}, defaults, props, { form })], with the default
    configuration of the module for what [props] leaves out. *)
Definition assign (props : Props) (form : NodeId) : Config :=
  {| id := default "" (p_id props);
     form := form;
     endpoint := default "https://api.statickit.com" (p_endpoint props);
     data := default (VObj []) (p_data props);
     fields := default ∅ (p_fields props);
     h := from_props (p_h props);
     onInit := from_props (p_onInit props);
     onSubmit := from_props (p_onSubmit props);
     onSuccess := from_props (p_onSuccess props);
     onError := from_props (p_onError props);
     onFailure := from_props (p_onFailure props);
     enable := from_props (p_enable props);
     disable := from_props (p_disable props);
     renderErrors := from_props (p_renderErrors props) |}.

Definition init (props : Props) : M bool :=
  if falsy_str (p_id props)
  then throw (VError "You must define an `id` property")
  else if falsy_element (p_element props)
  then throw (VError "You must define an `element` property")
  else
    match p_element props with
    | Some element =>
        form <- getFormElement element ;;
        match form with
        | None =>
            d <- get_dom ;;
            throw (VError ("Element `" +:+ toString d element +:+ "` not found"))
        | Some form =>
            let config := assign props form in
            setup config
        end
    | None => throw (VError "You must define an `element` property")
    end.

(** ** Reasoning about programs *)

Definition state_of {A} (r : Res A) : State :=
  match r with
  | Ret _ s => s
  | Throw _ s => s
  end.

(** The state a program ends in, whether it returns or throws. *)
Definition exec {A} (m : M A) (s : State) : State := state_of (m s).

(** The events recorded between [s] and [s']. *)
Definition new_calls (s s' : State) : list Event :=
  drop (length (calls s)) (calls s').

(** [emits P m]: running [m] adds events to the record, all of them in [P],
    and changes nothing of what was recorded. *)
Definition emits {A} (P : Event -> Prop) (m : M A) : Prop :=
  forall s, exists l, calls (exec m s) = calls s ++ l /\ Forall P l.

(** [silent m]: running [m] records nothing. *)
Definition silent {A} (m : M A) : Prop :=
  forall s, calls (exec m s) = calls s.

(** *** The parts of [submit] *)

(** The argument [submit] gives to [client.submitForm]. *)
Definition request (config : Config) (formData : list (string * JsVal)) : Request :=
  {| req_id := id config; req_endpoint := endpoint config; req_data := formData |}.

(** The statements of [submit] that come before its [try]; the value is the
    form data they build. *)
Definition prologue (config : Config) : M (list (string * JsVal)) :=
  formData <- new_FormData (form config) ;;
  formData <-
    (if String.eqb (typeof (data config)) "object"
     then append_data config (for_in (data config)) formData
     else ret formData) ;;
  call_renderErrors (renderErrors config) config [] ;;
  call_disable (disable config) config ;;
  call_onSubmit (onSubmit config) config ;;
  logger_log (id config) "Submitting" ;;
  ret formData.

(** The rest of the [try] block once the call has resolved with [result]. *)
Definition classify (config : Config) (result : Result) : M unit :=
  if Z.eqb (status (response result)) 200 then
    logger_log (id config) "Submitted" ;;
    call_onSuccess (onSuccess config) config (body result) ;;
    ret tt
  else
    logger_log (id config) "Validation error" ;;
    call_renderErrors (renderErrors config) config (errors (body result)) ;;
    call_onError (onError config) config (errors (body result)) ;;
    ret tt.

(** The [catch] block. *)
Definition rescue (config : Config) (e : JsVal) : M unit :=
  logger_log (id config) "Unexpected error" ;;
  call_onFailure Default config e ;;
  ret tt.

(** The [try ... catch ... finally] statement of [submit]. *)
Definition attempt (config : Config) (formData : list (string * JsVal)) : M unit :=
  try_finally
    (try_catch
       (result <- await_submitForm (request config formData) ;;
        classify config result)
       (rescue config))
    (call_enable (enable config) config).

(** The state in which a hook runs after the line [msg] has been logged. *)
Definition logged (ident msg : string) (s : State) : State :=
  {| world := world s; calls := calls s; diag := diag s ++ [(ident, msg)] |}.

(** *** Observing the record *)

Definition is_at (site : Site) (ev : Event) : bool :=
  match ev with
  | Call site' _ _ => bool_decide (site' = site)
  | _ => false
  end.

Definition is_SubmitForm (ev : Event) : bool :=
  match ev with
  | SubmitForm _ => true
  | _ => false
  end.

Definition is_data_call (config : Config) (ev : Event) : Prop :=
  exists prop n, ev = Call (at_data prop) (Custom n) [AConfig config].

(** The events of the [try] and [catch] blocks come from these calls. *)
Definition in_try (ev : Event) : bool :=
  is_at at_onSuccess ev || is_at at_h ev || is_at at_renderErrors ev
  || is_at at_onError ev || is_at at_onFailure ev.

(** The state the [catch] block leaves when it catches [v] in [s]. *)
Definition rescued (config : Config) (v : JsVal) (s : State) : State :=
  {| world := world s;
     calls := calls s ++ [Call at_onFailure Default [AConfig config; AVal v]];
     diag := diag s ++ [(id config, "Unexpected error")] |}.

(** *** The default Error Renderer, slot by slot *)

(** What the default error rendering hook writes in a slot whose
    [data-sk-error] attribute is [skError]. *)
Definition slot_message (config : Config) (errors : list FieldError)
    (skError : option string) : string :=
  match List.find (fun error => bool_decide (Some (field error) = skError)) errors with
  | None => ""
  | Some error => fullMessage config error
  end.

(** What it makes of a slot. *)
Definition render_slot (config : Config) (errors : list FieldError)
    (e : Element) : Element :=
  set_innerHTML (slot_message config errors (dataset_skError e)) e.

(** What it makes of the page. *)
Definition render (config : Config) (errors : list FieldError) (d : Dom) : Dom :=
  foldl (fun d n => update n (render_slot config errors) d) d
        (querySelectorAll d (form config) sel_sk_error).

(** The custom message configured for the field [f] under [key], and the
    pretty name configured for [f]; [None] when there is none. *)
Definition custom_message (config : Config) (f key : string) : option string :=
  match fields config !! f with
  | Some fieldConfig =>
      match errorMessages fieldConfig with
      | Some messages => messages !! key
      | None => None
      end
  | None => None
  end.

Definition pretty_name (config : Config) (f : string) : option string :=
  match fields config !! f with
  | Some fieldConfig => prettyName fieldConfig
  | None => None
  end.

(** The message of a slot for the field [f], in the words of the
    specification: the first error of the field; none, the empty content;
    one, the custom message under the lower-cased, camel-cased code if there
    is one, else the pretty name, "This field" if there is none, a space and
    the message of the error. *)
Definition message_by_spec (config : Config) (errors : list FieldError)
    (f : string) : string :=
  match List.find (fun error => String.eqb (field error) f) errors with
  | None => ""
  | Some error =>
      let key := toCamel (toLowerCase (default "" (code error))) in
      match custom_message config f key with
      | Some custom => custom
      | None =>
          default "This field" (pretty_name config f) +:+ " " +:+ message error
      end
  end.

(** The content of node [n] in the state [s]. *)
Definition content (s : State) (n : NodeId) : option string :=
  innerHTML <$> dom (world s) !! n.

(** The error slots of the form of [config] in the state [s]. *)
Definition error_slots (config : Config) (s : State) : list NodeId :=
  querySelectorAll (dom (world s)) (form config) sel_sk_error.




(** *** Binding and the extra data, for the statements *)

(** The state [setup] is in once the listener is attached: the line is
    logged and the form of [config] has the listener. *)
Definition bound (config : Config) (s : State) : State :=
  {| world := {| dom := update (form config)
                               (add_listener (SubmitListener config))
                               (dom (world s));
                 ext := ext (world s) |};
     calls := calls s;
     diag := diag s ++ [(id config, "Initializing")] |}.





(** *** The outcome branches, as the specification words them *)

(** "Invokes the Error Renderer exactly once with that list, and then invokes
    the validation-error hook with the identical list": what is recorded
    after the call of the client, for the error list [errs]. *)
Definition rendered_then_reported (config : Config) (errs : list FieldError)
    (l : list Event) : Prop :=
  exists tail,
    l = Call at_renderErrors (renderErrors config) [AConfig config; AErrors errs]
        :: Call at_onError (onError config) [AConfig config; AErrors errs]
        :: tail /\
    Forall (fun ev => is_at at_renderErrors ev = false) tail.

(** "The Error Renderer is not invoked with a non-empty error list": a call
    of the Error Renderer, if [ev] is one, is given the empty list. *)
Definition renders_no_error (ev : Event) : Prop :=
  forall f args,
    ev = Call at_renderErrors f args -> exists c, args = [AConfig c; AErrors []].

(** The element [h('div', {}, 'Thank you!')] makes, under [parent]. *)
Definition thank_you (parent : option NodeId) : Element :=
  {| tagName := "DIV"; toStringTag := "HTMLElement"; parentNode := parent;
     dataset_skError := None; typeAttr := None; disabled := false;
     control := None; innerHTML := "Thank you!"; submitListeners := [] |}.


(** "The default success hook removes the bound form from the document by
    replacing it with a 'Thank you!' element": called in [s], where the form
    is the element [e], the default success callback returns, and then the
    form has no parent and a new 'Thank you!' element stands where the form
    stood. *)
Definition form_replaced (config : Config) (resp : Body) (s : State) : Prop :=
  exists e s',
    dom (world s) !! form config = Some e /\
    call_onSuccess Default config resp s = Ret VUndef s' /\
    dom (world s') =
      <[form config := set_parentNode None e]> (dom (world s))
      ++ [thank_you (parentNode e)].

(** "A hook invoked during result classification (the success hook, the
    validation-error hook, or the Error Renderer) throws": the call resolved
    with [result] in [s2], and the hook throws [v], leaving [s3]. *)
Definition classification_hook_throws (config : Config) (result : Result)
    (s2 : State) (v : JsVal) (s3 : State) : Prop :=
  (status (response result) = 200 /\
   call_onSuccess (onSuccess config) config (body result)
     (logged (id config) "Submitted" s2) = Throw v s3)
  \/
  (status (response result) <> 200 /\
   call_renderErrors (renderErrors config) config (errors (body result))
     (logged (id config) "Validation error" s2) = Throw v s3)
  \/
  (status (response result) <> 200 /\
   exists u s',
     call_renderErrors (renderErrors config) config (errors (body result))
       (logged (id config) "Validation error" s2) = Ret u s' /\
     call_onError (onError config) config (errors (body result)) s' = Throw v s3).

(** "The submit routine's returned promise resolves rather than rejects". *)
Definition resolves (r : Res unit) : Prop := exists s', r = Ret tt s'.


(** *** The cleanup of the lifecycle, as the specification words it *)

(** "The form's submit controls are disabled (via the configured disable
    hook) before the network call begins": whatever comes before the first
    call of the client holds a call of the disable hook. *)
Definition disabled_before_call (config : Config) (l : list Event) : Prop :=
  forall pre req post,
    l = pre ++ SubmitForm req :: post ->
    Forall (fun ev => is_SubmitForm ev = false) pre ->
    Call at_disable (disable config) [AConfig config] ∈ pre.

(** "The configured enable hook is executed exactly once on exit of the
    whole operation": its call is the last event and the only one of its
    kind. *)
Definition enabled_once_on_exit (config : Config) (l : list Event) : Prop :=
  exists before,
    l = before ++ [Call at_enable (enable config) [AConfig config]] /\
    Forall (fun ev => is_at at_enable ev = false) before.

Definition lifecycle_cleanup (config : Config) (l : list Event) : Prop :=
  disabled_before_call config l /\ enabled_once_on_exit config l.

(** *** A page, a client and user functions to run the module on *)

Definition element (tag : string) (parent : option NodeId) : Element :=
  {| tagName := tag; toStringTag := "HTMLElement"; parentNode := parent;
     dataset_skError := None; typeAttr := None; disabled := false;
     control := None; innerHTML := ""; submitListeners := [] |}.

Definition email_input : Element :=
  {| tagName := "INPUT"; toStringTag := "HTMLInputElement";
     parentNode := Some 1%nat; dataset_skError := None;
     typeAttr := Some "email"; disabled := false;
     control := Some ("email", "a@b"); innerHTML := "";
     submitListeners := [] |}.

Definition email_slot : Element :=
  {| tagName := "SPAN"; toStringTag := "HTMLSpanElement";
     parentNode := Some 1%nat; dataset_skError := Some "email";
     typeAttr := None; disabled := false; control := None;
     innerHTML := "old"; submitListeners := [] |}.

Definition send_button : Element :=
  {| tagName := "BUTTON"; toStringTag := "HTMLButtonElement";
     parentNode := Some 1%nat; dataset_skError := None;
     typeAttr := Some "submit"; disabled := false; control := None;
     innerHTML := "Send"; submitListeners := [] |}.

(** [<body><form><input name=email value=a@b><span data-sk-error=email>old
    </span><button type=submit>Send</button></form><div></div></body>] *)
Definition page : Dom :=
  [ element "BODY" None;
    element "FORM" (Some 0%nat);
    email_input;
    email_slot;
    send_button;
    element "DIV" (Some 0%nat) ].

Definition start : State :=
  {| world := {| dom := page; ext := VUndef |}; calls := []; diag := [] |}.

(** User functions: number 0 throws, number 1 leaves a mark in the user's
    state, number 2 returns a string, number 3 throws when it is given a list
    of errors that is not empty, the others do nothing. *)
Definition demo_user (n : nat) (args : list Arg) (w : World) : Completion * World :=
  match n with
  | 0%nat => (Abrupt (VError "boom"), w)
  | 1%nat => (Normal VUndef, {| dom := dom w; ext := VStr "ran" |})
  | 2%nat => (Normal (VStr "computed"), w)
  | 3%nat =>
      match args with
      | [_; AErrors (_ :: _)] => (Abrupt (VError "cannot render"), w)
      | _ => (Normal VUndef, w)
      end
  | _ => (Normal VUndef, w)
  end.

(** A client whose call fails, and one that answers. *)
Definition rejects (req : Request) (w : World) : Settled * World :=
  (Rejected (VError "network"), w).

Definition answers (st : Z) (b : Body) (req : Request) (w : World) : Settled * World :=
  (Resolved {| response := {| status := st |}; body := b |}, w).

Definition demo_querySelector (d : Dom) (sel : string) : Lookup :=
  if String.eqb sel "#signup" then found (Some 1%nat)
  else if String.eqb sel "#box" then found (Some 5%nat)
  else found None.

(** A stand-in for [toCamel] on codes made of one word. *)
Definition one_word (s : string) : string := s.

(** The members of [Object.prototype], with the text V8 gives for them. *)
Definition native (name : string) : string :=
  "function " +:+ name +:+ "() { [native code] }".

Definition Object_prototype_members : list (string * string) :=
  [ ("constructor", native "Object");
    ("__defineGetter__", native "__defineGetter__");
    ("__defineSetter__", native "__defineSetter__");
    ("hasOwnProperty", native "hasOwnProperty");
    ("__lookupGetter__", native "__lookupGetter__");
    ("__lookupSetter__", native "__lookupSetter__");
    ("isPrototypeOf", native "isPrototypeOf");
    ("propertyIsEnumerable", native "propertyIsEnumerable");
    ("toString", native "toString");
    ("valueOf", native "valueOf");
    ("__proto__", "[object Object]");
    ("toLocaleString", native "toLocaleString") ].

(** A host to run the module on: the codes are made of ASCII letters, and
    the conversions left to the host do not occur. *)
Definition demo_host : Host :=
  {| toLowerCase := ascii_toLowerCase;
     Object_prototype := fun key =>
       snd <$> List.find (fun m => String.eqb (fst m) key) Object_prototype_members;
     exotic_ToString := fun _ => "[object Object]" |}.

(** The configuration [init] builds from [{id: "f1", element: form,
    endpoint: "https://x/y"}]. *)
Definition plain_config : Config :=
  {| id := "f1"; form := 1%nat; endpoint := "https://x/y"; data := VObj [];
     fields := ∅;
     h := Default; onInit := Default; onSubmit := Default;
     onSuccess := Default; onError := Default; onFailure := Default;
     enable := Default; disable := Default; renderErrors := Default |}.

(** The same with a submit callback that throws. *)
Definition config_onSubmit_throws : Config :=
  {| id := "f1"; form := 1%nat; endpoint := "https://x/y"; data := VObj [];
     fields := ∅;
     h := Default; onInit := Default; onSubmit := Custom 0;
     onSuccess := Default; onError := Default; onFailure := Default;
     enable := Default; disable := Default; renderErrors := Default |}.

(** The same with an Error Renderer of the user's that throws on a list of
    errors that is not empty. *)
Definition config_renderer_throws : Config :=
  {| id := "f1"; form := 1%nat; endpoint := "https://x/y"; data := VObj [];
     fields := ∅;
     h := Default; onInit := Default; onSubmit := Default;
     onSuccess := Default; onError := Default; onFailure := Default;
     enable := Default; disable := Default; renderErrors := Custom 3 |}.

(** The same with a success callback and an enable hook that throw. *)
Definition config_hooks_throw : Config :=
  {| id := "f1"; form := 1%nat; endpoint := "https://x/y"; data := VObj [];
     fields := ∅;
     h := Default; onInit := Default; onSubmit := Default;
     onSuccess := Custom 0; onError := Default; onFailure := Default;
     enable := Custom 0; disable := Default; renderErrors := Default |}.

(** The same with a success callback that throws. *)
Definition config_onSuccess_throws : Config :=
  {| id := "f1"; form := 1%nat; endpoint := "https://x/y"; data := VObj [];
     fields := ∅;
     h := Default; onInit := Default; onSubmit := Default;
     onSuccess := Custom 0; onError := Default; onFailure := Default;
     enable := Default; disable := Default; renderErrors := Default |}.

(** The same with an empty custom message for the code [invalid] of the
    field [email]. *)
Definition config_empty_message : Config :=
  {| id := "f1"; form := 1%nat; endpoint := "https://x/y"; data := VObj [];
     fields := {[ "email" := {| prettyName := None;
                                errorMessages := Some {[ "invalid" := "" ]} |} ]};
     h := Default; onInit := Default; onSubmit := Default;
     onSuccess := Default; onError := Default; onFailure := Default;
     enable := Default; disable := Default; renderErrors := Default |}.

(** The same with a custom message that is not empty. *)
Definition config_custom_message : Config :=
  {| id := "f1"; form := 1%nat; endpoint := "https://x/y"; data := VObj [];
     fields := {[ "email" := {| prettyName := Some "Your email";
                                errorMessages :=
                                  Some {[ "invalid" := "Please check the address" ]} |} ]};
     h := Default; onInit := Default; onSubmit := Default;
     onSuccess := Default; onError := Default; onFailure := Default;
     enable := Default; disable := Default; renderErrors := Default |}.



(** An error whose code, lower-cased, names a member of every plain
    object. *)
Definition email_constructor : FieldError :=
  {| field := "email"; code := Some "CONSTRUCTOR"; message := "is invalid" |}.

(** Nothing given to [init]. *)
Definition props_empty : Props :=
  {| p_id := None; p_element := None; p_endpoint := None; p_data := None;
     p_fields := None; p_h := None; p_onInit := None; p_onSubmit := None;
     p_onSuccess := None; p_onError := None; p_onFailure := None;
     p_enable := None; p_disable := None; p_renderErrors := None |}.

(** [{id: "f1", element: "#box"}]: the selector finds the [div] of the
    page. *)
Definition props_box : Props :=
  {| p_id := Some "f1"; p_element := Some (Selector "#box"); p_endpoint := None;
     p_data := None; p_fields := None; p_h := None; p_onInit := None;
     p_onSubmit := None; p_onSuccess := None; p_onError := None;
     p_onFailure := None; p_enable := None; p_disable := None;
     p_renderErrors := None |}.


(** A field error and a response body that holds it. *)
Definition email_invalid : FieldError :=
  {| field := "email"; code := Some "INVALID"; message := "is invalid" |}.

Definition invalid_body : Body :=
  {| errors := [email_invalid]; payload := [] |}.

Definition empty_body : Body := {| errors := []; payload := [] |}.

(** The same with a failure callback of the user's. *)
Definition config_onFailure : Config :=
  {| id := "f1"; form := 1%nat; endpoint := "https://x/y"; data := VObj [];
     fields := ∅;
     h := Default; onInit := Default; onSubmit := Default;
     onSuccess := Default; onError := Default; onFailure := Custom 1;
     enable := Default; disable := Default; renderErrors := Default |}.


(** The calls [submit] makes before its [try] statement: those of the
    function entries of [data], the clearing call of the Error Renderer, the
    disable hook and the submit-started hook. *)
Definition before_call (config : Config) (ev : Event) : Prop :=
  is_data_call config ev \/
  ev = Call at_renderErrors (renderErrors config) [AConfig config; AErrors []] \/
  ev = Call at_disable (disable config) [AConfig config] \/
  ev = Call at_onSubmit (onSubmit config) [AConfig config].


(** *** The submit controls of a form *)

(** [n] is a submit control of [root]: a node inside [root] that
    [[type='submit']] matches and that [:enabled] and [:disabled] tell
    apart.  A [button] without a [type] attribute is none, an [a] with one
    is none either. *)
Definition submit_control (d : Dom) (root n : NodeId) : bool :=
  descendant d root n &&
  match d !! n with
  | Some e => is_submit e && can_be_disabled e
  | None => false
  end.

(** The page after the default enable hook ([b] false): every submit control
    inside [root] has its [disabled] flag cleared.  The page after the
    default disable hook ([b] true): every submit control inside [root]
    that no other element disables has its [disabled] flag set.  Nothing
    else is changed. *)
Definition set_buttons (b : bool) (root : NodeId) (d : Dom) : Dom :=
  imap (fun n e =>
          if submit_control d root n
             && (negb b || negb (disabled_by_ancestor d n e))
          then set_disabled b e else e) d.

(** [d'] is [d] with the [disabled] flag set on more elements. *)
Definition more_disabled (d d' : Dom) : Prop :=
  length d' = length d /\
  forall i e,
    d !! i = Some e ->
    exists e',
      d' !! i = Some e' /\
      parentNode e' = parentNode e /\
      tagName e' = tagName e /\
      typeAttr e' = typeAttr e /\
      dataset_skError e' = dataset_skError e /\
      (disabled e = true -> disabled e' = true).

(** A page whose form holds a submit button that is disabled in the markup,
    beside the one that is not. *)
Definition page_locked : Dom :=
  page ++ [ {| tagName := "BUTTON"; toStringTag := "HTMLButtonElement";
               parentNode := Some 1%nat; dataset_skError := None;
               typeAttr := Some "submit"; disabled := true; control := None;
               innerHTML := "Later"; submitListeners := [] |} ].

Definition start_locked : State :=
  {| world := {| dom := page_locked; ext := VUndef |}; calls := []; diag := [] |}.


(** A page whose form holds, at node 3, a submit button with the
    [disabled] attribute inside a disabled [fieldset]; at node 4 a link with
    [type=submit]; at node 5 an input with [type=SUBMIT]; at node 6 a button
    without a [type] attribute. *)
Definition page_fieldset : Dom :=
  [ element "BODY" None;
    element "FORM" (Some 0%nat);
    {| tagName := "FIELDSET"; toStringTag := "HTMLFieldSetElement";
       parentNode := Some 1%nat; dataset_skError := None; typeAttr := None;
       disabled := true; control := None; innerHTML := "";
       submitListeners := [] |};
    {| tagName := "BUTTON"; toStringTag := "HTMLButtonElement";
       parentNode := Some 2%nat; dataset_skError := None;
       typeAttr := Some "submit"; disabled := true; control := None;
       innerHTML := "Send"; submitListeners := [] |};
    {| tagName := "A"; toStringTag := "HTMLAnchorElement";
       parentNode := Some 1%nat; dataset_skError := None;
       typeAttr := Some "submit"; disabled := false; control := None;
       innerHTML := "Send"; submitListeners := [] |};
    {| tagName := "INPUT"; toStringTag := "HTMLInputElement";
       parentNode := Some 1%nat; dataset_skError := None;
       typeAttr := Some "SUBMIT"; disabled := false; control := None;
       innerHTML := ""; submitListeners := [] |};
    {| tagName := "BUTTON"; toStringTag := "HTMLButtonElement";
       parentNode := Some 1%nat; dataset_skError := None;
       typeAttr := None; disabled := false; control := None;
       innerHTML := "Go"; submitListeners := [] |} ].

Definition start_fieldset : State :=
  {| world := {| dom := page_fieldset; ext := VUndef |}; calls := []; diag := [] |}.

(** The plain configuration with two extra data entries, the second a
    function that throws (user function number 0). *)
Definition config_data_throws : Config :=
  {| id := "f1"; form := 1%nat; endpoint := "https://x/y";
     data := VObj [("plan", VStr "free"); ("stamp", VFun 0); ("late", VFun 2)];
     fields := ∅;
     h := Default; onInit := Default; onSubmit := Default;
     onSuccess := Default; onError := Default; onFailure := Default;
     enable := Default; disable := Default; renderErrors := Default |}.

(** A form that is in no document: it has no parent. *)
Definition page_detached : Dom :=
  [ element "FORM" None;
    {| tagName := "BUTTON"; toStringTag := "HTMLButtonElement";
       parentNode := Some 0%nat; dataset_skError := None;
       typeAttr := Some "submit"; disabled := false; control := None;
       innerHTML := "Send"; submitListeners := [] |} ].

Definition start_detached : State :=
  {| world := {| dom := page_detached; ext := VUndef |}; calls := []; diag := [] |}.

Definition config_detached : Config :=
  {| id := "f1"; form := 0%nat; endpoint := "https://x/y"; data := VObj [];
     fields := ∅;
     h := Default; onInit := Default; onSubmit := Default;
     onSuccess := Default; onError := Default; onFailure := Default;
     enable := Default; disable := Default; renderErrors := Default |}.

(** [{id: "f1", element: form}], the form of the page given by reference,
    and the same with the [div] of the page. *)
Definition props_form : Props :=
  {| p_id := Some "f1"; p_element := Some (Node 1); p_endpoint := None;
     p_data := None; p_fields := None; p_h := None; p_onInit := None;
     p_onSubmit := None; p_onSuccess := None; p_onError := None;
     p_onFailure := None; p_enable := None; p_disable := None;
     p_renderErrors := None |}.

Definition props_div : Props :=
  {| p_id := Some "f1"; p_element := Some (Node 5); p_endpoint := None;
     p_data := None; p_fields := None; p_h := None; p_onInit := None;
     p_onSubmit := None; p_onSuccess := None; p_onError := None;
     p_onFailure := None; p_enable := None; p_disable := None;
     p_renderErrors := None |}.

(** [{id: "f1", element: "#none"}]: the selector finds nothing. *)
Definition props_none : Props :=
  {| p_id := Some "f1"; p_element := Some (Selector "#none"); p_endpoint := None;
     p_data := None; p_fields := None; p_h := None; p_onInit := None;
     p_onSubmit := None; p_onSuccess := None; p_onError := None;
     p_onFailure := None; p_enable := None; p_disable := None;
     p_renderErrors := None |}.

(** A [document.querySelector] that knows one selector and refuses the rest
    as not parsing. *)
Definition picky_querySelector (d : Dom) (sel : string) : Lookup :=
  if String.eqb sel "#signup" then found (Some 1%nat)
  else invalid (VError "SyntaxError").


(** An error for a field that has no slot on the demonstration page. *)
Definition name_required : FieldError :=
  {| field := "name"; code := Some "REQUIRED"; message := "is required" |}.


Lemma bind_Ret_inv {A B} (m : M A) (k : A -> M B) s b s' :
  bind m k s = Ret b s' ->
  exists a s1, m s = Ret a s1 /\ k a s1 = Ret b s'.
Proof.
  unfold bind. destruct (m s) as [a s1|e s1]; [eauto | discriminate].
Qed.

Lemma bind_Throw_inv {A B} (m : M A) (k : A -> M B) s e s' :
  bind m k s = Throw e s' ->
  m s = Throw e s' \/ exists a s1, m s = Ret a s1 /\ k a s1 = Throw e s'.
Proof.
  unfold bind. destruct (m s) as [a s1|e1 s1]; [eauto | intros [= -> ->]; auto].
Qed.

Lemma exec_bind_Ret {A B} (m : M A) (k : A -> M B) s a s1 :
  m s = Ret a s1 -> bind m k s = k a s1.
Proof. unfold bind. intros ->. reflexivity. Qed.

Lemma exec_bind_Throw {A B} (m : M A) (k : A -> M B) s e s1 :
  m s = Throw e s1 -> bind m k s = Throw e s1.
Proof. unfold bind. intros ->. reflexivity. Qed.

Lemma silent_emits {A} (P : Event -> Prop) (m : M A) : silent m -> emits P m.
Proof. intros H s. exists []. rewrite app_nil_r. split; [apply H | constructor]. Qed.

Lemma emits_weaken {A} (P Q : Event -> Prop) (m : M A) :
  (forall ev, P ev -> Q ev) -> emits P m -> emits Q m.
Proof.
  intros HPQ Hm s. destruct (Hm s) as (l & Hl & HP).
  exists l. split; [exact Hl | eapply Forall_impl; eauto].
Qed.

Lemma emits_bind {A B} (P : Event -> Prop) (m : M A) (k : A -> M B) :
  emits P m -> (forall a, emits P (k a)) -> emits P (bind m k).
Proof.
  intros Hm Hk s. unfold exec, bind.
  destruct (Hm s) as (l & Hl & HP). unfold exec in Hl.
  destruct (m s) as [a s1|e s1]; simpl in *.
  - destruct (Hk a s1) as (l' & Hl' & HP'). unfold exec in Hl'.
    exists (l ++ l'). rewrite Hl', Hl, app_assoc.
    split; [reflexivity | apply Forall_app; auto].
  - exists l. auto.
Qed.

Lemma silent_bind {A B} (m : M A) (k : A -> M B) :
  silent m -> (forall a, silent (k a)) -> silent (bind m k).
Proof.
  intros Hm Hk s. unfold exec, bind. specialize (Hm s). unfold exec in Hm.
  destruct (m s) as [a s1|e s1]; simpl in *; [| exact Hm].
  rewrite <- Hm. apply (Hk a s1).
Qed.

Lemma silent_ret {A} (a : A) : silent (ret a).
Proof. intros s. reflexivity. Qed.

Lemma silent_throw {A} e : silent (@throw A e).
Proof. intros s. reflexivity. Qed.

Lemma silent_get_dom : silent get_dom.
Proof. intros s. reflexivity. Qed.

Lemma silent_modify_dom f : silent (modify_dom f).
Proof. intros s. reflexivity. Qed.

Lemma silent_logger_log i msg : silent (logger_log i msg).
Proof. intros s. reflexivity. Qed.

Lemma silent_run_user n args : silent (run_user n args).
Proof.
  intros s. unfold exec, run_user.
  destruct (user n args (world s)) as [[v|e] w]; reflexivity.
Qed.

Lemma silent_forEach {A} (l : list A) (f : A -> M unit) :
  (forall x, silent (f x)) -> silent (forEach l f).
Proof.
  intros Hf. induction l as [|x r IH]; simpl.
  - apply silent_ret.
  - apply silent_bind; auto.
Qed.

Lemma emits_try_catch {A} (P : Event -> Prop) (body : M A) handler :
  emits P body -> (forall e, emits P (handler e)) -> emits P (try_catch body handler).
Proof.
  intros Hb Hh s. unfold exec, try_catch.
  destruct (Hb s) as (l & Hl & HP). unfold exec in Hl.
  destruct (body s) as [a s1|e s1]; simpl in *.
  - exists l. auto.
  - destruct (Hh e s1) as (l' & Hl' & HP'). unfold exec in Hl'.
    exists (l ++ l'). rewrite Hl', Hl, app_assoc.
    split; [reflexivity | apply Forall_app; auto].
Qed.

Create HintDb quiet discriminated.
#[local] Hint Resolve silent_ret silent_throw silent_get_dom silent_modify_dom
  silent_logger_log silent_run_user : quiet.

Ltac quiet :=
  repeat first
    [ apply silent_bind; [| intros ? ]
    | apply silent_forEach; intros ?
    | solve [ auto with quiet ]
    | match goal with
      | |- silent (match ?x with _ => _ end) => destruct x
      | |- silent (if ?x then _ else _) => destruct x
      end ].

Lemma silent_node_querySelectorAll root sel : silent (node_querySelectorAll root sel).
Proof. unfold node_querySelectorAll. quiet. Qed.

Lemma silent_get_skError n : silent (get_skError n).
Proof. unfold get_skError. quiet. Qed.

Lemma silent_assign_innerHTML n html : silent (assign_innerHTML n html).
Proof. unfold assign_innerHTML. quiet. Qed.

Lemma silent_assign_disabled n b : silent (assign_disabled n b).
Proof. unfold assign_disabled. quiet. Qed.

Lemma silent_get_parentNode n : silent (get_parentNode n).
Proof. unfold get_parentNode. quiet. Qed.

Lemma silent_replaceChild p r c : silent (replaceChild p r c).
Proof. unfold replaceChild. quiet. Qed.

Lemma silent_new_FormData n : silent (new_FormData n).
Proof. unfold new_FormData. quiet. Qed.

Lemma silent_FormData_append formData name value :
  silent (FormData_append formData name value).
Proof. intros s. reflexivity. Qed.

Lemma silent_hyperscript tag text : silent (hyperscript tag text).
Proof. unfold hyperscript. quiet. Qed.

#[local] Hint Resolve silent_node_querySelectorAll silent_get_skError
  silent_assign_innerHTML silent_assign_disabled silent_get_parentNode
  silent_replaceChild silent_new_FormData silent_hyperscript : quiet.

Lemma silent_default_enable config : silent (default_enable config).
Proof. unfold default_enable. quiet. Qed.

Lemma silent_default_disable config : silent (default_disable config).
Proof. unfold default_disable. quiet. Qed.

Lemma silent_default_renderErrors config errors :
  silent (default_renderErrors config errors).
Proof. unfold default_renderErrors. quiet. Qed.

#[local] Hint Resolve silent_default_enable silent_default_disable
  silent_default_renderErrors : quiet.

(** A call whose default records nothing adds exactly its own event. *)
Lemma call_calls site f args dflt s :
  silent dflt ->
  calls (exec (call site f args dflt) s) = calls s ++ [Call site f args].
Proof.
  intros Hd. unfold exec, call, bind, record.
  destruct f as [|n].
  - apply (Hd {| world := world s; calls := calls s ++ [Call site Default args];
                 diag := diag s |}).
  - apply (silent_run_user n args
            {| world := world s; calls := calls s ++ [Call site (Custom n) args];
               diag := diag s |}).
Qed.

(** ** The default Error Renderer *)

Lemma update_lookup (g : Element -> Element) n (d : Dom) i :
  update n g d !! i = if decide (i = n) then g <$> d !! i else d !! i.
Proof.
  unfold update. destruct (d !! n) as [e|] eqn:He.
  - destruct (decide (i = n)) as [->|Hne].
    + rewrite He. apply list_lookup_insert_eq. eapply lookup_lt_Some, He.
    + apply list_lookup_insert_ne. congruence.
  - destruct (decide (i = n)) as [->|Hne]; [rewrite He |]; reflexivity.
Qed.

Lemma update_length (g : Element -> Element) n (d : Dom) :
  length (update n g d) = length d.
Proof. unfold update. destruct (d !! n); [apply length_insert | reflexivity]. Qed.

Lemma foldl_update_length (g : Element -> Element) ns (d : Dom) :
  length (foldl (fun d n => update n g d) d ns) = length d.
Proof.
  revert d. induction ns as [|n ns IH]; intros d; simpl; [reflexivity |].
  rewrite IH. apply update_length.
Qed.

(** Updating the nodes of [ns] with an idempotent [g] applies [g] to each of
    them, once. *)
Lemma foldl_update_lookup (g : Element -> Element) ns (d : Dom) i :
  (forall e, g (g e) = g e) ->
  foldl (fun d n => update n g d) d ns !! i =
  if bool_decide (i ∈ ns) then g <$> d !! i else d !! i.
Proof.
  intros Hg. revert d. induction ns as [|n ns IH]; intros d; simpl.
  - reflexivity.
  - rewrite IH, update_lookup.
    destruct (decide (i = n)) as [->|Hne].
    + rewrite (bool_decide_eq_true_2 (n ∈ n :: ns)) by (apply elem_of_cons; auto).
      destruct (bool_decide (n ∈ ns)); [| reflexivity].
      destruct (d !! n); simpl; [rewrite Hg |]; reflexivity.
    + destruct (decide (i ∈ ns)) as [Hin|Hnin].
      * rewrite !bool_decide_eq_true_2; [reflexivity | | exact Hin].
        apply elem_of_cons. auto.
      * rewrite !bool_decide_eq_false_2; [reflexivity | | exact Hnin].
        intros [?|?]%elem_of_cons; contradiction.
Qed.

Lemma render_slot_idempotent config errors e :
  render_slot config errors (render_slot config errors e) = render_slot config errors e.
Proof. reflexivity. Qed.

Lemma elem_of_querySelectorAll (d : Dom) root sel n :
  n ∈ querySelectorAll d root sel <-> selected d root sel n = true.
Proof.
  unfold querySelectorAll. rewrite list_elem_of_In, filter_In, in_seq. split.
  - intros [_ H]. exact H.
  - intros H. split; [| exact H]. unfold selected in H.
    apply andb_prop in H as [_ H].
    destruct (d !! n) as [e|] eqn:He; [| discriminate].
    apply lookup_lt_Some in He. lia.
Qed.

(** The page after the default error rendering hook, node by node. *)
Lemma render_lookup config errors (d : Dom) i :
  render config errors d !! i =
  if selected d (form config) sel_sk_error i
  then render_slot config errors <$> d !! i
  else d !! i.
Proof.
  unfold render.
  rewrite foldl_update_lookup by apply render_slot_idempotent.
  destruct (selected d (form config) sel_sk_error i) eqn:Hs.
  - rewrite bool_decide_eq_true_2; [reflexivity |].
    apply elem_of_querySelectorAll, Hs.
  - rewrite bool_decide_eq_false_2; [reflexivity |].
    rewrite elem_of_querySelectorAll, Hs. discriminate.
Qed.

Lemma set_dom_set_dom d d' s : set_dom d' (set_dom d s) = set_dom d' s.
Proof. reflexivity. Qed.

(** One turn of the loop of the hook. *)
Lemma render_step config errors n s :
  (skError <- get_skError n ;;
   match List.find (fun error => bool_decide (Some (field error) = skError)) errors with
   | None => assign_innerHTML n ""
   | Some error => assign_innerHTML n (fullMessage config error)
   end) s =
  Ret tt (set_dom (update n (render_slot config errors) (dom (world s))) s).
Proof.
  unfold bind, get_skError, get_dom, ret. simpl.
  unfold update, render_slot, slot_message.
  destruct (dom (world s) !! n) as [e|] eqn:He; simpl.
  - destruct (List.find _ errors); unfold assign_innerHTML, modify_dom, update;
      rewrite He; reflexivity.
  - destruct (List.find _ errors); unfold assign_innerHTML, modify_dom, update;
      rewrite He; reflexivity.
Qed.

Lemma forEach_render config errors ns s :
  forEach ns (fun element =>
    skError <- get_skError element ;;
    match List.find (fun error => bool_decide (Some (field error) = skError)) errors with
    | None => assign_innerHTML element ""
    | Some error => assign_innerHTML element (fullMessage config error)
    end) s =
  Ret tt (set_dom (foldl (fun d n => update n (render_slot config errors) d)
                         (dom (world s)) ns) s).
Proof.
  revert s. induction ns as [|n ns IH]; intros s; simpl.
  - unfold ret, set_dom. destruct s as [[d x] c g]. reflexivity.
  - unfold bind at 1. rewrite render_step. rewrite IH. reflexivity.
Qed.

(** The default error rendering hook always returns, and [render] is what it
    does to the page. *)
Lemma default_renderErrors_Ret config errors s :
  default_renderErrors config errors s =
  Ret VUndef (set_dom (render config errors (dom (world s))) s).
Proof.
  unfold default_renderErrors. cbv zeta.
  rewrite (exec_bind_Ret _ _ s (querySelectorAll (dom (world s)) (form config) sel_sk_error) s)
    by reflexivity.
  rewrite (exec_bind_Ret _ _ _ _ _ (forEach_render config errors _ s)).
  reflexivity.
Qed.






Lemma find_field_None (errors : list FieldError) f :
  Forall (fun error => field error <> f) errors ->
  List.find (fun error => bool_decide (Some (field error) = Some f)) errors = None.
Proof.
  induction 1 as [|error errors Hne _ IH]; simpl; [reflexivity |].
  rewrite bool_decide_eq_false_2 by congruence. exact IH.
Qed.

Lemma find_field_first (before after : list FieldError) error f :
  Forall (fun error => field error <> f) before ->
  field error = f ->
  List.find (fun error => bool_decide (Some (field error) = Some f))
            (before ++ error :: after) = Some error.
Proof.
  intros Hb He. induction Hb as [|x before Hne _ IH]; simpl.
  - rewrite bool_decide_eq_true_2 by congruence. reflexivity.
  - rewrite bool_decide_eq_false_2 by congruence. exact IH.
Qed.

Lemma fullMessage_eq config error :
  fullMessage config error =
  let key := toCamel (toLowerCase (default "" (code error))) in
  let fallback := str_or (pretty_name config (field error)) "This field"
                  +:+ " " +:+ message error in
  match custom_message config (field error) key with
  | Some own => str_or (Some own) fallback
  | None => default fallback (Object_prototype key)
  end.
Proof.
  unfold fullMessage, member_or, custom_message, pretty_name.
  assert (Hc : str_or (code error) "" = default "" (code error)).
  { destruct (code error) as [c|]; simpl; [| reflexivity].
    destruct (String.eqb_spec c ""); congruence. }
  rewrite Hc.
  destruct (fields config !! field error) as [fc|]; simpl.
  - destruct (errorMessages fc); simpl; [reflexivity |].
    rewrite lookup_empty. reflexivity.
  - rewrite lookup_empty. reflexivity.
Qed.

Lemma str_or_Some a b : a <> "" -> str_or (Some a) b = a.
Proof. intros H. simpl. destruct (String.eqb_spec a ""); congruence. Qed.

Lemma str_or_absent (a : option string) b : a = None \/ a = Some "" -> str_or a b = b.
Proof. intros [->| ->]; reflexivity. Qed.

(** The content of an error slot after the default error rendering hook. *)
Lemma default_renderErrors_content config errors s slot e :
  dom (world s) !! slot = Some e ->
  slot ∈ error_slots config s ->
  content (exec (default_renderErrors config errors) s) slot =
  Some (slot_message config errors (dataset_skError e)).
Proof.
  intros He Hin. apply elem_of_querySelectorAll in Hin.
  unfold content, exec. rewrite default_renderErrors_Ret. simpl.
  rewrite render_lookup, Hin, He. reflexivity.
Qed.

(** C5, as amended: for every error slot of the form and every error list,
    the default Error Renderer takes the first error of the list whose field
    is the slot's field name.  If there is none, it empties the slot.  If
    there is one, it writes the custom message configured for the field under
    the lower-cased, then camel-cased, error code when there is one and it is
    not the empty string.  When that message is the empty string, or when
    there is none and the key is not the name of a member of
    [Object.prototype], it writes the pretty name of the field, "This field"
    when there is none or it is empty, followed by a space and the message of
    the error. *)
Theorem default_renderErrors_slot config errors s slot e f :
  dom (world s) !! slot = Some e ->
  slot ∈ error_slots config s ->
  dataset_skError e = Some f ->
  let shown := content (exec (default_renderErrors config errors) s) slot in
  (Forall (fun error => field error <> f) errors -> shown = Some "") /\
  (forall before error after,
     errors = before ++ error :: after ->
     Forall (fun error => field error <> f) before ->
     field error = f ->
     let key := toCamel (toLowerCase (default "" (code error))) in
     let custom := custom_message config f key in
     let pretty := pretty_name config f in
     (forall m, custom = Some m -> m <> "" -> shown = Some m) /\
     (custom = Some "" \/ (custom = None /\ Object_prototype key = None) ->
      (forall name, pretty = Some name -> name <> "" ->
         shown = Some (name +:+ " " +:+ message error)) /\
      (pretty = None \/ pretty = Some "" ->
         shown = Some ("This field " +:+ message error)))).
Proof.
  intros He Hin Hf shown. subst shown.
  rewrite (default_renderErrors_content _ _ _ _ _ He Hin), Hf.
  unfold slot_message. split.
  - intros Hnone. rewrite (find_field_None _ _ Hnone). reflexivity.
  - intros before error after -> Hb Herr.
    rewrite (find_field_first _ _ _ _ Hb Herr), fullMessage_eq, Herr.
    cbv zeta. split.
    + intros m -> Hm. rewrite (str_or_Some _ _ Hm). reflexivity.
    + intros Hcustom.
      assert (Hfb : forall fallback,
                match custom_message config f
                        (toCamel (toLowerCase (default "" (code error)))) with
                | Some own => str_or (Some own) fallback
                | None => default fallback
                            (Object_prototype
                               (toCamel (toLowerCase (default "" (code error)))))
                end = fallback).
      { intros fallback. destruct Hcustom as [-> | [-> ->]]; reflexivity. }
      rewrite Hfb. split.
      * intros name -> Hname. rewrite (str_or_Some _ _ Hname). reflexivity.
      * intros Hpretty. rewrite (str_or_absent _ _ Hpretty). reflexivity.
Qed.

(** *** The shape of [submit] *)

Lemma bind_assoc {A B C} (m : M A) (k : A -> M B) (k' : B -> M C) s :
  bind (bind m k) k' s = bind m (fun a => bind (k a) k') s.
Proof. unfold bind. destruct (m s); reflexivity. Qed.

Lemma bind_ext {A B} (m : M A) (k k' : A -> M B) s :
  (forall a s', k a s' = k' a s') -> bind m k s = bind m k' s.
Proof. intros H. unfold bind. destruct (m s); auto. Qed.

Lemma exec_bind {A B} (m : M A) (k : A -> M B) s :
  exec (bind m k) s =
  match m s with
  | Ret a s1 => exec (k a) s1
  | Throw _ s1 => s1
  end.
Proof. unfold exec, bind. destruct (m s); reflexivity. Qed.

Lemma submit_unfold config s :
  submit config s = bind (prologue config) (attempt config) s.
Proof.
  unfold submit, prologue.
  do 6 (rewrite bind_assoc; apply bind_ext; intros ? ?).
  reflexivity.
Qed.

Lemma exec_Ret {A} (m : M A) s a s' : m s = Ret a s' -> exec m s = s'.
Proof. unfold exec. intros ->. reflexivity. Qed.

Lemma exec_Throw {A} (m : M A) s e s' : m s = Throw e s' -> exec m s = s'.
Proof. unfold exec. intros ->. reflexivity. Qed.

Lemma call_Ret_calls site f args dflt s v s' :
  silent dflt ->
  call site f args dflt s = Ret v s' ->
  calls s' = calls s ++ [Call site f args].
Proof.
  intros Hd H. rewrite <- (exec_Ret _ _ _ _ H). apply call_calls, Hd.
Qed.

Lemma call_Throw_calls site f args dflt s e s' :
  silent dflt ->
  call site f args dflt s = Throw e s' ->
  calls s' = calls s ++ [Call site f args].
Proof.
  intros Hd H. rewrite <- (exec_Throw _ _ _ _ H). apply call_calls, Hd.
Qed.

Lemma emits_call (P : Event -> Prop) site f args dflt :
  silent dflt -> P (Call site f args) -> emits P (call site f args dflt).
Proof.
  intros Hd HP s. exists [Call site f args].
  split; [apply call_calls, Hd | repeat constructor; exact HP].
Qed.

(** The default success callback records its call of [h] and nothing else. *)
Lemma default_onSuccess_calls config resp s :
  calls (exec (default_onSuccess config resp) s) =
  calls s ++ [Call at_h (h config)
                [AVal (VStr "div"); AVal (VObj []); AVal (VStr "Thank you!")]].
Proof.
  unfold default_onSuccess. rewrite exec_bind.
  pose proof (call_calls at_h (h config)
    [AVal (VStr "div"); AVal (VObj []); AVal (VStr "Thank you!")]
    (hyperscript "div" "Thank you!") s (silent_hyperscript _ _)) as Hc.
  unfold exec in Hc.
  destruct (call at_h (h config) _ _ s) as [r s1|e s1]; simpl in Hc;
    [| exact Hc].
  rewrite <- Hc.
  assert (Hs : silent (parent <- get_parentNode (form config) ;;
                       match parent with
                       | Some p => replaceChild p r (form config) ;; ret VUndef
                       | None => throw (TypeError "Cannot read property 'replaceChild' of null")
                       end)) by quiet.
  apply Hs.
Qed.

Lemma emits_append_data config entries formData :
  emits (is_data_call config) (append_data config entries formData).
Proof.
  revert formData. induction entries as [|[prop v] rest IH]; intros formData.
  - apply silent_emits, silent_ret.
  - assert (Hstore : forall v',
              emits (is_data_call config)
                (formData <- FormData_append formData prop v' ;;
                 append_data config rest formData)).
    { intros v'. apply emits_bind; [| intros fd; apply IH].
      apply silent_emits, silent_FormData_append. }
    destruct v; simpl; try apply Hstore.
    apply emits_bind; [| intros r; apply Hstore].
    apply emits_call; [apply silent_ret |].
    exists prop, f. reflexivity.
Qed.

(** What a completed prologue has recorded: the calls of the function
    entries of [data], then the three hooks. *)
Lemma prologue_calls config s formData s1 :
  prologue config s = Ret formData s1 ->
  exists D,
    calls s1 = calls s ++ D ++
      [Call at_renderErrors (renderErrors config) [AConfig config; AErrors []];
       Call at_disable (disable config) [AConfig config];
       Call at_onSubmit (onSubmit config) [AConfig config]] /\
    Forall (is_data_call config) D.
Proof.
  unfold prologue. intros H.
  apply bind_Ret_inv in H as (fd0 & s0 & H0 & H).
  apply bind_Ret_inv in H as (fd & sa & Ha & H).
  apply bind_Ret_inv in H as (v1 & sb & Hb & H).
  apply bind_Ret_inv in H as (v2 & sc & Hc & H).
  apply bind_Ret_inv in H as (v3 & sd & Hd & H).
  apply bind_Ret_inv in H as (v4 & se & He & H).
  injection H as -> ->.
  pose proof (silent_new_FormData (form config) s) as E0.
  rewrite (exec_Ret _ _ _ _ H0) in E0.
  assert (Ea : exists D, calls sa = calls s0 ++ D /\ Forall (is_data_call config) D).
  { destruct (String.eqb (typeof (data config)) "object").
    - destruct (emits_append_data config (for_in (data config)) fd0 s0)
        as (D & HD & HF).
      rewrite (exec_Ret _ _ _ _ Ha) in HD. eauto.
    - injection Ha as -> ->. exists []. rewrite app_nil_r. auto. }
  destruct Ea as (D & Ea & HD).
  apply call_Ret_calls in Hb; [| auto with quiet].
  apply call_Ret_calls in Hc; [| auto with quiet].
  apply call_Ret_calls in Hd; [| apply silent_ret].
  pose proof (silent_logger_log (id config) "Submitting" sd) as Ee.
  rewrite (exec_Ret _ _ _ _ He) in Ee.
  exists D. split; [| exact HD].
  rewrite Ee, Hd, Hc, Hb, Ea, E0. rewrite <- !app_assoc. reflexivity.
Qed.

Lemma await_submitForm_calls req s :
  calls (exec (await_submitForm req) s) = calls s ++ [SubmitForm req].
Proof.
  unfold exec, await_submitForm, bind, record. simpl.
  destruct (client_submitForm req (world s)) as [[r|e] w]; reflexivity.
Qed.

Lemma attempt_resolved config formData s1 result s2 :
  await_submitForm (request config formData) s1 = Ret result s2 ->
  attempt config formData s1 =
  try_finally (try_catch (classify config result) (rescue config))
              (call_enable (enable config) config) s2.
Proof.
  intros H. unfold attempt, try_finally, try_catch, bind. rewrite H. reflexivity.
Qed.

Lemma attempt_rejected config formData s1 e s2 :
  await_submitForm (request config formData) s1 = Throw e s2 ->
  attempt config formData s1 =
  try_finally (rescue config e) (call_enable (enable config) config) s2.
Proof.
  intros H. unfold attempt, try_finally, try_catch, bind. rewrite H. reflexivity.
Qed.

(** The [catch] block always completes: the default failure callback does
    nothing. *)
Lemma rescue_Ret config e s :
  rescue config e s =
  Ret tt {| world := world s;
            calls := calls s ++ [Call at_onFailure Default [AConfig config; AVal e]];
            diag := diag s ++ [(id config, "Unexpected error")] |}.
Proof. reflexivity. Qed.

Lemma call_onSuccess_calls config f resp s :
  exists l,
    calls (exec (call_onSuccess f config resp) s) =
    calls s ++ Call at_onSuccess f [AConfig config; ABody resp] :: l /\
    Forall (fun ev => is_at at_h ev = true) l.
Proof.
  unfold call_onSuccess, call. rewrite exec_bind. unfold record.
  destruct f as [|n].
  - rewrite default_onSuccess_calls. simpl. rewrite <- app_assoc. simpl.
    eexists. split; [reflexivity |]. repeat constructor.
  - rewrite silent_run_user. simpl. exists []. split; [reflexivity | constructor].
Qed.

Lemma emits_classify config result : emits (fun ev => in_try ev = true) (classify config result).
Proof.
  unfold classify. destruct (Z.eqb _ _).
  - apply emits_bind; [apply silent_emits; auto with quiet | intros _].
    apply emits_bind; [| intros _; apply silent_emits, silent_ret].
    intros s. destruct (call_onSuccess_calls config (onSuccess config) (body result) s)
      as (l & Hl & HF).
    eexists. split; [exact Hl |]. constructor; [reflexivity |].
    eapply Forall_impl; [exact HF |]. intros ev Hev. unfold in_try. rewrite Hev.
    destruct (is_at at_onSuccess ev); reflexivity.
  - apply emits_bind; [apply silent_emits; auto with quiet | intros _].
    apply emits_bind; [apply emits_call; [auto with quiet | reflexivity] | intros _].
    apply emits_bind; [apply emits_call; [apply silent_ret | reflexivity] | intros _].
    apply silent_emits, silent_ret.
Qed.

Lemma emits_rescue config e : emits (fun ev => in_try ev = true) (rescue config e).
Proof.
  intros s. rewrite (exec_Ret _ _ _ _ (rescue_Ret config e s)). simpl.
  eexists. split; [reflexivity |]. repeat constructor.
Qed.

(** Whatever happens in the [try] and [catch] blocks, the call of the enable
    hook is the last event, and the only one of its kind. *)
Lemma try_finally_enable_calls config (body : M unit) s :
  emits (fun ev => in_try ev = true) body ->
  exists P,
    calls (exec (try_finally body (call_enable (enable config) config)) s) =
    calls s ++ P ++ [Call at_enable (enable config) [AConfig config]] /\
    Forall (fun ev => in_try ev = true) P.
Proof.
  intros Hb. destruct (Hb s) as (P & HP & HF). exists P. split; [| exact HF].
  unfold exec, try_finally in *.
  pose proof (call_calls at_enable (enable config) [AConfig config]
                (default_enable config)) as Hen.
  unfold exec, call_enable in *.
  destruct (body s) as [a s'|e s']; simpl in HP;
    specialize (Hen s' (silent_default_enable config));
    destruct (call at_enable (enable config) [AConfig config] (default_enable config) s');
    simpl in *; rewrite Hen, HP, <- app_assoc; reflexivity.
Qed.

Lemma attempt_calls config formData s1 :
  exists P,
    calls (exec (attempt config formData) s1) =
    calls s1 ++ SubmitForm (request config formData) :: P ++
      [Call at_enable (enable config) [AConfig config]] /\
    Forall (fun ev => in_try ev = true) P.
Proof.
  pose proof (await_submitForm_calls (request config formData) s1) as Haw.
  unfold exec in *.
  destruct (await_submitForm (request config formData) s1) as [result s2|e s2] eqn:Hr;
    simpl in Haw.
  - rewrite (attempt_resolved _ _ _ _ _ Hr).
    destruct (try_finally_enable_calls config
                (try_catch (classify config result) (rescue config)) s2)
      as (P & HP & HF).
    { apply emits_try_catch; [apply emits_classify | intros; apply emits_rescue]. }
    exists P. split; [| exact HF]. unfold exec in HP.
    rewrite HP, Haw, <- app_assoc. reflexivity.
  - rewrite (attempt_rejected _ _ _ _ _ Hr).
    destruct (try_finally_enable_calls config (rescue config e) s2) as (P & HP & HF).
    { apply emits_rescue. }
    exists P. split; [| exact HF]. unfold exec in HP.
    rewrite HP, Haw, <- app_assoc. reflexivity.
Qed.

(** ** The cleanup of the lifecycle *)

Lemma in_try_not_enable ev : in_try ev = true -> is_at at_enable ev = false.
Proof.
  destruct ev as [site f args| |]; try reflexivity.
  destruct site; simpl; try reflexivity; discriminate.
Qed.

Lemma data_call_not_enable config ev :
  is_data_call config ev -> is_at at_enable ev = false.
Proof. intros (prop & n & ->). reflexivity. Qed.

Lemma data_call_not_SubmitForm config ev :
  is_data_call config ev -> is_SubmitForm ev = false.
Proof. intros (prop & n & ->). reflexivity. Qed.

(** The first element with a property is found at one place only. *)
Lemma first_split_unique {A} (P : A -> bool) (l1 l2 k1 k2 : list A) x y :
  l1 ++ x :: k1 = l2 ++ y :: k2 ->
  P x = true -> P y = true ->
  Forall (fun a => P a = false) l1 ->
  Forall (fun a => P a = false) l2 ->
  l1 = l2.
Proof.
  revert l2. induction l1 as [|a l1 IH]; intros [|b l2] H Hx Hy H1 H2.
  - reflexivity.
  - simpl in H. injection H as -> _. inversion H2; congruence.
  - simpl in H. injection H as -> _. inversion H1; congruence.
  - simpl in H. injection H as -> H. f_equal.
    inversion H1; inversion H2; subst. eapply IH; eauto.
Qed.

(** The record of a whole invocation that reaches the network call. *)
Lemma submit_calls config s formData s1 :
  prologue config s = Ret formData s1 ->
  exists D P,
    new_calls s (exec (submit config) s) =
      (D ++ [Call at_renderErrors (renderErrors config) [AConfig config; AErrors []];
             Call at_disable (disable config) [AConfig config];
             Call at_onSubmit (onSubmit config) [AConfig config]])
      ++ SubmitForm (request config formData)
      :: P ++ [Call at_enable (enable config) [AConfig config]] /\
    Forall (is_data_call config) D /\
    Forall (fun ev => in_try ev = true) P.
Proof.
  intros Hp. destruct (prologue_calls _ _ _ _ Hp) as (D & HD & HF).
  destruct (attempt_calls config formData s1) as (P & HP & HFP).
  exists D, P. split; [| auto].
  unfold new_calls, exec in *. rewrite submit_unfold.
  rewrite (exec_bind_Ret _ _ _ _ _ Hp), HP, HD.
  rewrite <- !app_assoc. rewrite drop_app_length. reflexivity.
Qed.

(** C2, as amended: for every invocation of the submit routine in which the
    steps before the network call complete without throwing (the form data
    is built, the function entries of [data], the clearing call of the Error
    Renderer, the disable hook and the submit-started hook return), the
    network call is made, the configured disable hook has been called before
    it, and the configured enable hook is called exactly once, as the last
    thing the invocation does, whichever way the call and the hooks after it
    end. *)
Theorem submit_cleanup_after_prologue config s formData s1 :
  prologue config s = Ret formData s1 ->
  let l := new_calls s (exec (submit config) s) in
  SubmitForm (request config formData) ∈ l /\ lifecycle_cleanup config l.
Proof.
  intros Hp l. destruct (submit_calls _ _ _ _ Hp) as (D & P & Hl & HD & HP).
  fold l in Hl. rewrite Hl. clear Hl l.
  assert (Hpre : Forall (fun ev => is_SubmitForm ev = false)
            (D ++ [Call at_renderErrors (renderErrors config) [AConfig config; AErrors []];
                   Call at_disable (disable config) [AConfig config];
                   Call at_onSubmit (onSubmit config) [AConfig config]])).
  { apply Forall_app. split.
    - eapply Forall_impl; [exact HD | apply data_call_not_SubmitForm].
    - repeat constructor. }
  split; [| split].
  - apply elem_of_app. right. apply elem_of_cons. left. reflexivity.
  - intros pre req post Heq Hfirst.
    assert (pre = D ++ [Call at_renderErrors (renderErrors config) [AConfig config; AErrors []];
                        Call at_disable (disable config) [AConfig config];
                        Call at_onSubmit (onSubmit config) [AConfig config]]) as ->.
    { symmetry. eapply (first_split_unique is_SubmitForm); eauto. }
    apply elem_of_app. right. apply elem_of_cons. right.
    apply elem_of_cons. left. reflexivity.
  - eexists. split.
    + rewrite app_comm_cons, app_assoc. reflexivity.
    + apply Forall_app. split; [apply Forall_app; split |].
      * eapply Forall_impl; [exact HD | apply data_call_not_enable].
      * repeat constructor.
      * constructor; [reflexivity |].
        eapply Forall_impl; [exact HP | apply in_try_not_enable].
Qed.

(** The default enable hook never throws. *)
Lemma forEach_assign_disabled_Ret (l : list NodeId) b s :
  exists s', forEach l (fun button => assign_disabled button b) s = Ret tt s'.
Proof.
  revert s. induction l as [|n l IH]; intros s; simpl.
  - eexists. reflexivity.
  - unfold bind at 1. simpl. apply IH.
Qed.

Lemma call_enable_default_Ret config s :
  exists s', call_enable Default config s = Ret VUndef s'.
Proof.
  unfold call_enable, call, default_enable, node_querySelectorAll, bind at 1 2 3 4.
  simpl.
  destruct (forEach_assign_disabled_Ret
              (querySelectorAll (dom (world s)) (form config) sel_submit_disabled) false
              {| world := world s;
                 calls := calls s ++ [Call at_enable Default [AConfig config]];
                 diag := diag s |}) as (s' & Hs).
  unfold bind. rewrite Hs. eexists. reflexivity.
Qed.

(** ** The outcome branches *)

Lemma submit_resolved config s formData s1 result s2 :
  prologue config s = Ret formData s1 ->
  await_submitForm (request config formData) s1 = Ret result s2 ->
  submit config s =
  try_finally (try_catch (classify config result) (rescue config))
              (call_enable (enable config) config) s2.
Proof.
  intros Hp Ha. rewrite submit_unfold, (exec_bind_Ret _ _ _ _ _ Hp).
  apply attempt_resolved, Ha.
Qed.

Lemma submit_rejected config s formData s1 e s2 :
  prologue config s = Ret formData s1 ->
  await_submitForm (request config formData) s1 = Throw e s2 ->
  submit config s =
  try_finally (rescue config e) (call_enable (enable config) config) s2.
Proof.
  intros Hp Ha. rewrite submit_unfold, (exec_bind_Ret _ _ _ _ _ Hp).
  apply attempt_rejected, Ha.
Qed.

Lemma call_enable_calls config s :
  calls (exec (call_enable (enable config) config) s) =
  calls s ++ [Call at_enable (enable config) [AConfig config]].
Proof. apply call_calls, silent_default_enable. Qed.

Lemma try_finally_calls {A B} (body : M A) (fin : M B) s :
  exec (try_finally body fin) s = exec fin (exec body s).
Proof.
  unfold exec, try_finally.
  destruct (body s) as [a s'|e s']; simpl; destruct (fin s'); reflexivity.
Qed.

(** The [try] and [catch] blocks together: what the body recorded, then the
    call of the default failure callback if the body threw. *)
Lemma try_catch_rescue_exec config (body : M unit) s :
  exec (try_catch body (rescue config)) s =
  match body s with
  | Ret _ s' => s'
  | Throw v s' => rescued config v s'
  end.
Proof.
  unfold exec, try_catch. destruct (body s) as [a s'|v s']; reflexivity.
Qed.

Lemma classify_validation config result s :
  status (response result) <> 200 ->
  classify config result s =
  (call_renderErrors (renderErrors config) config (errors (body result)) ;;
   call_onError (onError config) config (errors (body result)) ;;
   ret tt) (logged (id config) "Validation error" s).
Proof.
  intros H. unfold classify. apply Z.eqb_neq in H. rewrite H. reflexivity.
Qed.

Lemma classify_success config result s :
  status (response result) = 200 ->
  classify config result s =
  (call_onSuccess (onSuccess config) config (body result) ;; ret tt)
    (logged (id config) "Submitted" s).
Proof.
  intros H. unfold classify. apply Z.eqb_eq in H. rewrite H. reflexivity.
Qed.

Lemma call_renderErrors_calls config errs s :
  calls (exec (call_renderErrors (renderErrors config) config errs) s) =
  calls s ++ [Call at_renderErrors (renderErrors config) [AConfig config; AErrors errs]].
Proof. apply call_calls, silent_default_renderErrors. Qed.

Lemma call_onError_calls config errs s :
  calls (exec (call_onError (onError config) config errs) s) =
  calls s ++ [Call at_onError (onError config) [AConfig config; AErrors errs]].
Proof. apply call_calls, silent_ret. Qed.

Lemma classification_hook_throws_iff config result s2 v s3 :
  classification_hook_throws config result s2 v s3 <->
  classify config result s2 = Throw v s3.
Proof.
  unfold classification_hook_throws.
  destruct (Z.eq_dec (status (response result)) 200) as [E|E].
  - rewrite (classify_success _ _ _ E). unfold bind.
    destruct (call_onSuccess _ _ _ _) as [u s'|v' s'] eqn:Hc; simpl;
      naive_solver congruence.
  - rewrite (classify_validation _ _ _ E). unfold bind.
    destruct (call_renderErrors _ _ _ _) as [u s'|v' s'] eqn:Hr; simpl.
    + destruct (call_onError _ _ _ s') as [u' s''|v' s''] eqn:Ho; simpl; split.
      * intros [[H _]|[[_ H]|(_ & u1 & s1' & [= <- <-] & H)]];
          [contradiction | discriminate | congruence].
      * discriminate.
      * intros [[H _]|[[_ H]|(_ & u1 & s1' & [= <- <-] & H)]];
          [contradiction | discriminate | congruence].
      * intros [= <- <-]. right. right. split; [exact E |]. exists u, s'. split; congruence.
    + naive_solver congruence.
Qed.

Lemma new_calls_app s s' l : calls s' = calls s ++ l -> new_calls s s' = l.
Proof. unfold new_calls. intros ->. apply drop_app_length. Qed.

(** X5: a transport failure.  Once the call of the client has failed with
    [e], the submit routine calls the default failure callback of the module
    with [e], then the enable hook of the configuration, and nothing else:
    neither the Error Renderer nor the validation-error hook. *)
Lemma transport_failure_calls config s formData s1 e s2 :
  prologue config s = Ret formData s1 ->
  await_submitForm (request config formData) s1 = Throw e s2 ->
  new_calls s2 (exec (submit config) s) =
  [Call at_onFailure Default [AConfig config; AVal e];
   Call at_enable (enable config) [AConfig config]].
Proof.
  intros Hp Ha. apply new_calls_app.
  unfold exec at 1. rewrite (submit_rejected _ _ _ _ _ _ Hp Ha).
  change (state_of (?m s2)) with (exec m s2).
  rewrite try_finally_calls, call_enable_calls.
  rewrite (exec_Ret _ _ _ _ (rescue_Ret config e s2)). simpl.
  rewrite <- app_assoc. reflexivity.
Qed.

(** What is recorded once the call has resolved: the events of the [try]
    block, the call of the default failure callback if the block threw, and
    the call of the enable hook. *)
Lemma resolved_calls config s formData s1 result s2 :
  prologue config s = Ret formData s1 ->
  await_submitForm (request config formData) s1 = Ret result s2 ->
  calls (exec (submit config) s) =
  match classify config result s2 with
  | Ret _ s3 => calls s3
  | Throw v s3 => calls s3 ++ [Call at_onFailure Default [AConfig config; AVal v]]
  end ++ [Call at_enable (enable config) [AConfig config]].
Proof.
  intros Hp Ha. unfold exec at 1. rewrite (submit_resolved _ _ _ _ _ _ Hp Ha).
  change (state_of (?m s2)) with (exec m s2).
  rewrite try_finally_calls, call_enable_calls, try_catch_rescue_exec.
  destruct (classify config result s2); reflexivity.
Qed.

Lemma call_renderErrors_default_Ret config errs s :
  exists s', call_renderErrors Default config errs s = Ret VUndef s'.
Proof.
  unfold call_renderErrors, call, bind, record. simpl.
  rewrite default_renderErrors_Ret. eexists. reflexivity.
Qed.

(** C3, as amended: for every response whose status is not 200, the submit
    routine takes the error list from the response body and calls the Error
    Renderer of the configuration with it, once; if the Error Renderer
    returns without throwing, as the default one always does, the next thing
    called is the validation-error hook, with the same list. *)
Theorem validation_failure_calls config s formData s1 result s2 :
  prologue config s = Ret formData s1 ->
  await_submitForm (request config formData) s1 = Ret result s2 ->
  status (response result) <> 200 ->
  let errs := errors (body result) in
  let l := new_calls s2 (exec (submit config) s) in
  (exists tail,
     l = Call at_renderErrors (renderErrors config) [AConfig config; AErrors errs]
         :: tail /\
     Forall (fun ev => is_at at_renderErrors ev = false) tail) /\
  (forall u s3,
     call_renderErrors (renderErrors config) config errs
       (logged (id config) "Validation error" s2) = Ret u s3 ->
     rendered_then_reported config errs l) /\
  (renderErrors config = Default -> rendered_then_reported config errs l).
Proof.
  intros Hp Ha Hst errs l.
  cut ((exists tail,
          l = Call at_renderErrors (renderErrors config) [AConfig config; AErrors errs]
              :: tail /\
          Forall (fun ev => is_at at_renderErrors ev = false) tail) /\
       (forall u s3,
          call_renderErrors (renderErrors config) config errs
            (logged (id config) "Validation error" s2) = Ret u s3 ->
          rendered_then_reported config errs l)).
  { intros [H1 H2]. split; [exact H1 |]. split; [exact H2 |].
    intros Hdef.
    destruct (call_renderErrors_default_Ret config errs
                (logged (id config) "Validation error" s2)) as (s3 & Hs3).
    apply (H2 VUndef s3). rewrite Hdef. exact Hs3. }
  subst l.
  pose proof (resolved_calls _ _ _ _ _ _ Hp Ha) as Hc.
  rewrite (classify_validation _ _ _ Hst) in Hc. fold errs in Hc.
  pose proof (call_renderErrors_calls config errs
                (logged (id config) "Validation error" s2)) as Hr.
  unfold bind in Hc. unfold exec in Hr. simpl in Hr.
  destruct (call_renderErrors (renderErrors config) config errs _)
    as [u s3|v s3]; simpl in Hr.
  - pose proof (call_onError_calls config errs s3) as Ho. unfold exec in Ho.
    assert (Hl : exists mid,
      new_calls s2 (exec (submit config) s) =
        Call at_renderErrors (renderErrors config) [AConfig config; AErrors errs]
        :: Call at_onError (onError config) [AConfig config; AErrors errs]
        :: mid ++ [Call at_enable (enable config) [AConfig config]] /\
      Forall (fun ev => is_at at_renderErrors ev = false) mid).
    { destruct (call_onError (onError config) config errs s3) as [u' s4|v s4];
        simpl in Ho, Hc; rewrite Ho, Hr in Hc.
      - exists []. split; [| constructor]. apply new_calls_app.
        rewrite Hc, <- !app_assoc. reflexivity.
      - exists [Call at_onFailure Default [AConfig config; AVal v]].
        split; [| repeat constructor]. apply new_calls_app.
        rewrite Hc, <- !app_assoc. reflexivity. }
    destruct Hl as (mid & Hl & Hmid). split.
    + eexists. split; [exact Hl |]. constructor; [reflexivity |].
      apply Forall_app. split; [exact Hmid | repeat constructor].
    + intros _ _ _. eexists. split; [exact Hl |].
      apply Forall_app. split; [exact Hmid | repeat constructor].
  - split.
    + eexists. split.
      * apply new_calls_app. rewrite Hc, Hr, <- !app_assoc. reflexivity.
      * repeat constructor.
    + intros u s4 [=].
Qed.

(** C8, as amended: when the call has resolved and the success hook, the
    Error Renderer or the validation-error hook throws, the exception is
    caught inside the submit routine: the default failure callback of the
    module is called with the thrown value, then the enable hook of the
    configuration, and nothing else; the promise of the submit routine
    resolves if the enable hook returns without throwing, as the default
    one always does. *)
Theorem classification_exception_caught config s formData s1 result s2 v s3 :
  prologue config s = Ret formData s1 ->
  await_submitForm (request config formData) s1 = Ret result s2 ->
  classification_hook_throws config result s2 v s3 ->
  new_calls s3 (exec (submit config) s) =
    [Call at_onFailure Default [AConfig config; AVal v];
     Call at_enable (enable config) [AConfig config]] /\
  (forall u s5,
     call_enable (enable config) config (rescued config v s3) = Ret u s5 ->
     resolves (submit config s)) /\
  (enable config = Default -> resolves (submit config s)).
Proof.
  intros Hp Ha Hthrow. apply classification_hook_throws_iff in Hthrow.
  assert (Hres : forall u s5,
     call_enable (enable config) config (rescued config v s3) = Ret u s5 ->
     resolves (submit config s)).
  { intros u s5 Hen. exists s5.
    rewrite (submit_resolved _ _ _ _ _ _ Hp Ha).
    unfold try_finally, try_catch. rewrite Hthrow, rescue_Ret.
    fold (rescued config v s3). rewrite Hen. reflexivity. }
  split; [| split].
  - apply new_calls_app. rewrite (resolved_calls _ _ _ _ _ _ Hp Ha), Hthrow.
    rewrite <- app_assoc. reflexivity.
  - exact Hres.
  - intros Hdef.
    destruct (call_enable_default_Ret config (rescued config v s3)) as (s5 & Hen).
    apply (Hres VUndef s5). rewrite Hdef. exact Hen.
Qed.

(** ** The success branch *)

Lemma success_calls config s formData s1 result s2 :
  prologue config s = Ret formData s1 ->
  await_submitForm (request config formData) s1 = Ret result s2 ->
  status (response result) = 200 ->
  exists l,
    calls (exec (submit config) s) =
      calls s2 ++ Call at_onSuccess (onSuccess config) [AConfig config; ABody (body result)]
      :: l /\
    Forall (fun ev => is_at at_renderErrors ev = false) l.
Proof.
  intros Hp Ha Hst.
  rewrite (resolved_calls _ _ _ _ _ _ Hp Ha), (classify_success _ _ _ Hst).
  destruct (call_onSuccess_calls config (onSuccess config) (body result)
              (logged (id config) "Submitted" s2)) as (l & Hl & HF).
  assert (HF' : Forall (fun ev => is_at at_renderErrors ev = false) l).
  { eapply Forall_impl; [exact HF |]. intros [site f args| |]; simpl; try discriminate.
    destruct site; simpl; try discriminate. reflexivity. }
  unfold bind, exec in *. simpl in Hl.
  destruct (call_onSuccess (onSuccess config) config (body result) _) as [u s3|v s3];
    simpl in *; rewrite Hl.
  - eexists. split; [rewrite <- app_assoc; reflexivity |].
    apply Forall_app. split; [exact HF' | repeat constructor].
  - eexists. split; [rewrite <- !app_assoc; reflexivity |].
    apply Forall_app. split; [exact HF' | repeat constructor].
Qed.

(** What the default success callback does to the page when [h] is the
    hyperscript function and the form has a parent. *)
Lemma default_onSuccess_replaces config resp s e p :
  h config = Default ->
  dom (world s) !! form config = Some e ->
  parentNode e = Some p ->
  exists s',
    default_onSuccess config resp s = Ret VUndef s' /\
    dom (world s') =
      <[form config := set_parentNode None e]> (dom (world s)) ++ [thank_you (Some p)].
Proof.
  intros Hh He Hpar.
  unfold default_onSuccess, call, bind, record, hyperscript, get_dom, modify_dom,
    get_parentNode, ret. rewrite Hh. simpl.
  pose proof (lookup_lt_Some _ _ _ He) as Hlt.
  rewrite (lookup_app_l _ _ _ Hlt), He. simpl. rewrite Hpar. simpl.
  eexists. split; [reflexivity |]. simpl.
  unfold update. rewrite (lookup_app_l _ _ _ Hlt), He.
  rewrite insert_app_l by exact Hlt.
  rewrite lookup_app_r by (rewrite length_insert; lia).
  rewrite length_insert, Nat.sub_diag. simpl.
  rewrite insert_app_r_alt by (rewrite length_insert; lia).
  rewrite length_insert, Nat.sub_diag. reflexivity.
Qed.

(** C4, as amended: for every response whose status is 200, the first thing
    the submit routine calls is the success hook of the configuration, with
    the response body; in the whole invocation the Error Renderer is called
    with the empty list only; and when the success hook is the default one,
    [h] is the hyperscript function and the form has a parent, the form is
    detached and a new element with the content "Thank you!" is put under
    that parent. *)
Theorem success_branch config s formData s1 result s2 :
  prologue config s = Ret formData s1 ->
  await_submitForm (request config formData) s1 = Ret result s2 ->
  status (response result) = 200 ->
  (exists tail,
     new_calls s2 (exec (submit config) s) =
       Call at_onSuccess (onSuccess config) [AConfig config; ABody (body result)]
       :: tail) /\
  Forall renders_no_error (new_calls s (exec (submit config) s)) /\
  (forall e p,
     onSuccess config = Default ->
     h config = Default ->
     dom (world s2) !! form config = Some e ->
     parentNode e = Some p ->
     exists s3,
       call_onSuccess (onSuccess config) config (body result)
         (logged (id config) "Submitted" s2) = Ret VUndef s3 /\
       dom (world s3) =
         <[form config := set_parentNode None e]> (dom (world s2))
         ++ [thank_you (Some p)]).
Proof.
  intros Hp Ha Hst.
  destruct (success_calls _ _ _ _ _ _ Hp Ha Hst) as (l & Hl & HF).
  split; [| split].
  - exists l. apply new_calls_app. exact Hl.
  - destruct (prologue_calls _ _ _ _ Hp) as (D & HD & HFD).
    pose proof (await_submitForm_calls (request config formData) s1) as Hs2.
    rewrite (exec_Ret _ _ _ _ Ha) in Hs2.
    rewrite (new_calls_app s _ _ ltac:(rewrite Hl, Hs2, HD, <- !app_assoc; reflexivity)).
    apply Forall_app. split.
    { eapply Forall_impl; [exact HFD |].
      intros ev (prop & n & ->) f args [=]. }
    apply Forall_cons. split.
    { intros f args [= <- <-]. eauto. }
    apply Forall_cons. split; [intros f args [=] |].
    apply Forall_cons. split; [intros f args [=] |].
    apply Forall_cons. split; [intros f args [=] |].
    apply Forall_cons. split; [intros f args [=] |].
    eapply Forall_impl; [exact HF |].
    intros ev Hev f args ->. simpl in Hev. discriminate.
  - intros e p Hdef Hh He Hpar. rewrite Hdef.
    destruct (default_onSuccess_replaces config (body result)
                {| world := world s2;
                   calls := calls s2 ++ [Call at_onSuccess Default
                                           [AConfig config; ABody (body result)]];
                   diag := diag s2 ++ [(id config, "Submitted")] |}
                e p Hh He Hpar) as (s3 & Hs3 & Hdom).
    exists s3. split; [| exact Hdom].
    unfold call_onSuccess, call, bind, record, logged. simpl. exact Hs3.
Qed.

(** ** Binding *)

(** C6: [init] with a configuration that has no [id], or no [element], or an
    [element] selector for which [document.querySelector] finds nothing,
    throws at once and leaves the state as it was: no listener is attached,
    the enable hook and the init hook are not called. *)
Theorem init_configuration_error props s :
  p_id props = None \/
  p_element props = None \/
  (exists sel, p_element props = Some (Selector sel) /\
               document_querySelector (dom (world s)) sel = found None) ->
  exists e, init props s = Throw e s.
Proof.
  intros [Hid|[Hel|(sel & Hel & Hq)]]; unfold init.
  - rewrite Hid. simpl. eexists. reflexivity.
  - rewrite Hel. destruct (falsy_str (p_id props)); eexists; reflexivity.
  - rewrite Hel. destruct (falsy_str (p_id props)); [eexists; reflexivity |].
    simpl. destruct (String.eqb sel ""); [eexists; reflexivity |].
    unfold getFormElement, querySelector, get_dom, tagName_is, bind. simpl.
    rewrite Hq. simpl. eexists. reflexivity.
Qed.

Lemma setup_bound config s :
  setup config s =
  (call_enable (enable config) config ;;
   call_onInit (onInit config) config ;;
   ret true) (bound config s).
Proof. reflexivity. Qed.

(** C9: element resolution checks the tag of a direct reference only.  A
    node whose [tagName] is "FORM" is returned as it is; anything else, a
    node that is not a form included, is given to [document.querySelector],
    whose answer is returned.  So [init] with a selector that finds a node,
    of whatever tag, binds that node: the listener is attached to it and the
    enable and init hooks are called. *)
Theorem getFormElement_tag_check :
  (forall s n e,
     dom (world s) !! n = Some e -> tagName e = "FORM" ->
     getFormElement (Node n) s = Ret (Some n) s) /\
  (forall s v,
     get_tagName (dom (world s)) v <> Some "FORM" ->
     getFormElement v s =
     match document_querySelector (dom (world s)) (toString (dom (world s)) v) with
     | found r => Ret r s
     | invalid e => Throw e s
     end) /\
  (forall props s ident sel n,
     p_id props = Some ident -> ident <> "" ->
     p_element props = Some (Selector sel) -> sel <> "" ->
     document_querySelector (dom (world s)) sel = found (Some n) ->
     let config := assign props n in
     form config = n /\
     init props s =
     (call_enable (enable config) config ;;
      call_onInit (onInit config) config ;;
      ret true) (bound config s)).
Proof.
  split; [| split].
  - intros s n e He Htag.
    unfold getFormElement, get_dom, tagName_is, bind. simpl.
    rewrite He. simpl. rewrite Htag. reflexivity.
  - intros s v Hne.
    unfold getFormElement, querySelector, get_dom, tagName_is, bind. simpl.
    destruct (get_tagName (dom (world s)) v) as [t|] eqn:Ht.
    + destruct (String.eqb_spec t "FORM") as [->|_]; [congruence |].
      destruct (document_querySelector _ _); reflexivity.
    + destruct (document_querySelector _ _); reflexivity.
  - intros props s ident sel n Hid Hident Hel Hsel Hq config.
    split; [reflexivity |].
    unfold init. rewrite Hid, Hel. simpl.
    apply String.eqb_neq in Hident, Hsel. rewrite Hident, Hsel.
    unfold getFormElement, querySelector, get_dom, tagName_is, bind.
    simpl. rewrite Hq. simpl. reflexivity.
Qed.

(** ** The extra data *)





(** ** The default enable and disable hooks *)

Lemma set_dom_same s : set_dom (dom (world s)) s = s.
Proof. destruct s as [[d x] c g]. reflexivity. Qed.

Lemma forEach_assign_disabled (ns : list NodeId) b s :
  forEach ns (fun button => assign_disabled button b) s =
  Ret tt (set_dom (foldl (fun d n => update n (set_disabled b) d)
                         (dom (world s)) ns) s).
Proof.
  revert s. induction ns as [|n ns IH]; intros s; simpl.
  - unfold ret. rewrite set_dom_same. reflexivity.
  - unfold bind at 1. unfold assign_disabled at 1, modify_dom.
    rewrite IH. reflexivity.
Qed.

(** The tree of a page decides who is inside whom. *)
Lemma ancestor_ext (d d' : Dom) fuel a n :
  (forall i, d' !! i ≫= parentNode = d !! i ≫= parentNode) ->
  ancestor d' fuel a n = ancestor d fuel a n.
Proof.
  intros H. revert n. induction fuel as [|k IH]; intros n; simpl.
  - reflexivity.
  - rewrite H. destruct (d !! n ≫= parentNode); [| reflexivity].
    rewrite IH. reflexivity.
Qed.

Lemma set_disabled_same b e : disabled e = b -> set_disabled b e = e.
Proof. intros <-. destruct e. reflexivity. Qed.

Lemma bool_decide_querySelectorAll (d : Dom) root sel n :
  bool_decide (n ∈ querySelectorAll d root sel) = selected d root sel n.
Proof.
  destruct (selected d root sel n) eqn:Hs.
  - apply bool_decide_eq_true_2, elem_of_querySelectorAll, Hs.
  - apply bool_decide_eq_false_2. rewrite elem_of_querySelectorAll, Hs. discriminate.
Qed.

(** Setting the flag of the controls the selector picks is [set_buttons]:
    the controls it does not pick have the flag already, or, for the
    selector of the disable hook, are disabled by another element. *)
Lemma toggle_lookup (b : bool) (d : Dom) root i :
  foldl (fun d n => update n (set_disabled b) d) d
        (querySelectorAll d root
           (if b then sel_submit_enabled else sel_submit_disabled)) !! i =
  set_buttons b root d !! i.
Proof.
  rewrite foldl_update_lookup by reflexivity.
  rewrite bool_decide_querySelectorAll.
  unfold set_buttons. rewrite list_lookup_imap.
  unfold selected, submit_control.
  destruct (descendant d root i); [| destruct (d !! i); reflexivity].
  destruct (d !! i) as [e|]; [| reflexivity]. simpl.
  destruct b; simpl; unfold actually_disabled;
    destruct (is_submit e), (can_be_disabled e), (disabled e) eqn:Hd,
      (disabled_by_ancestor d i e); simpl;
    try reflexivity; rewrite (set_disabled_same _ _ Hd); reflexivity.
Qed.

(** What the default enable hook does to the page. *)
Lemma default_enable_Ret config s :
  default_enable config s =
  Ret VUndef (set_dom (set_buttons false (form config) (dom (world s))) s).
Proof.
  unfold default_enable.
  rewrite (exec_bind_Ret _ _ s
             (querySelectorAll (dom (world s)) (form config) sel_submit_disabled) s)
    by reflexivity.
  rewrite (exec_bind_Ret _ _ _ _ _ (forEach_assign_disabled _ false s)).
  unfold ret. f_equal. f_equal. apply list_eq. intros i.
  apply (toggle_lookup false).
Qed.

(** What the default disable hook does to the page. *)
Lemma default_disable_Ret config s :
  default_disable config s =
  Ret VUndef (set_dom (set_buttons true (form config) (dom (world s))) s).
Proof.
  unfold default_disable.
  rewrite (exec_bind_Ret _ _ s
             (querySelectorAll (dom (world s)) (form config) sel_submit_enabled) s)
    by reflexivity.
  rewrite (exec_bind_Ret _ _ _ _ _ (forEach_assign_disabled _ true s)).
  unfold ret. f_equal. f_equal. apply list_eq. intros i.
  apply (toggle_lookup true).
Qed.

Lemma set_buttons_lookup b root (d : Dom) n :
  set_buttons b root d !! n =
  (fun e => if submit_control d root n
               && (negb b || negb (disabled_by_ancestor d n e))
            then set_disabled b e else e) <$> d !! n.
Proof. unfold set_buttons. apply list_lookup_imap. Qed.

Lemma set_buttons_length b root (d : Dom) :
  length (set_buttons b root d) = length d.
Proof. unfold set_buttons. apply length_imap. Qed.


(** *** Pages that differ in their [disabled] flags *)

Lemma more_disabled_lookup (d d' : Dom) i :
  more_disabled d d' ->
  d' !! i ≫= parentNode = d !! i ≫= parentNode /\
  tagName <$> d' !! i = tagName <$> d !! i /\
  typeAttr <$> d' !! i = typeAttr <$> d !! i.
Proof.
  intros [Hlen H]. destruct (d !! i) as [e|] eqn:He.
  - destruct (H i e He) as (e' & -> & Hp & Ht & Hty & _). simpl.
    rewrite Hp, Ht, Hty. auto.
  - assert (d' !! i = None) as ->; [| auto].
    apply lookup_ge_None. rewrite Hlen. apply lookup_ge_None, He.
Qed.

Lemma more_disabled_submit_control (d d' : Dom) root n :
  more_disabled d d' -> submit_control d' root n = submit_control d root n.
Proof.
  intros H. unfold submit_control, descendant.
  rewrite (ancestor_ext d d') by (intros i; apply (more_disabled_lookup _ _ i H)).
  rewrite (proj1 H).
  destruct (more_disabled_lookup _ _ n H) as (_ & Ht & Hty).
  unfold is_submit, can_be_disabled, tag_in.
  destruct (d' !! n) as [e'|], (d !! n) as [e|]; simpl in *; try discriminate;
    [| reflexivity].
  injection Ht as ->. injection Hty as ->. reflexivity.
Qed.

Lemma more_disabled_first_legend (d d' : Dom) f :
  more_disabled d d' -> first_legend d' f = first_legend d f.
Proof.
  intros H. unfold first_legend. rewrite (proj1 H).
  induction (seq 0 (length d)) as [|n l IH]; simpl; [reflexivity |].
  destruct (more_disabled_lookup _ _ n H) as (Hp & Ht & _).
  assert (Heq : match d' !! n with
                | Some e => bool_decide (parentNode e = Some f)
                            && String.eqb (tagName e) "LEGEND"
                | None => false
                end =
                match d !! n with
                | Some e => bool_decide (parentNode e = Some f)
                            && String.eqb (tagName e) "LEGEND"
                | None => false
                end).
  { destruct (d' !! n) as [e'|], (d !! n) as [e|]; simpl in *; try discriminate;
      [| reflexivity].
    injection Ht as ->. rewrite Hp. reflexivity. }
  rewrite Heq, IH. reflexivity.
Qed.

Lemma more_disabled_fieldset (d d' : Dom) fuel n :
  more_disabled d d' ->
  in_disabled_fieldset d fuel n = true -> in_disabled_fieldset d' fuel n = true.
Proof.
  intros H. revert n. induction fuel as [|k IH]; intros n; simpl; [auto |].
  rewrite (proj1 (more_disabled_lookup _ _ n H)).
  destruct (d !! n ≫= parentNode) as [p|]; [| auto].
  rewrite (more_disabled_first_legend _ _ p H).
  intros [Hf|Hrec]%orb_prop.
  - destruct (d !! p) as [f|] eqn:Hp; [| discriminate].
    destruct (proj2 H p f Hp) as (f' & -> & _ & Ht & _ & _ & Hdis).
    apply andb_prop in Hf as [Hf Hleg]. apply andb_prop in Hf as [Htag Hd].
    rewrite Ht, Htag, (Hdis Hd), Hleg. reflexivity.
  - rewrite (IH _ Hrec). apply orb_true_r.
Qed.

Lemma more_disabled_by_ancestor (d d' : Dom) n e e' :
  more_disabled d d' ->
  d !! n = Some e -> d' !! n = Some e' ->
  disabled_by_ancestor d n e = true -> disabled_by_ancestor d' n e' = true.
Proof.
  intros H He He'. destruct (proj2 H n e He) as (x & Hx & Hp & Ht & _).
  rewrite He' in Hx. injection Hx as <-.
  unfold disabled_by_ancestor, tag_in. rewrite Ht, Hp, (proj1 H).
  destruct (existsb _ _); [apply more_disabled_fieldset, H |].
  destruct (String.eqb (tagName e) "OPTION"); [| auto].
  destruct (parentNode e) as [p|]; simpl; [| auto].
  destruct (d !! p) as [g|] eqn:Hg; [| discriminate].
  destruct (proj2 H p g Hg) as (g' & -> & _ & Htg & _ & _ & Hdis).
  intros [Htag Hd]%andb_prop. rewrite Htg, Htag, (Hdis Hd). reflexivity.
Qed.

Lemma set_disabled_fields b e :
  parentNode (set_disabled b e) = parentNode e /\
  tagName (set_disabled b e) = tagName e /\
  typeAttr (set_disabled b e) = typeAttr e /\
  dataset_skError (set_disabled b e) = dataset_skError e.
Proof. auto. Qed.

(** The disable hook sets flags, the enable hook clears them. *)
Lemma more_disabled_disable root (d : Dom) : more_disabled d (set_buttons true root d).
Proof.
  split; [apply set_buttons_length |].
  intros i e He. rewrite set_buttons_lookup, He. simpl.
  eexists. split; [reflexivity |].
  destruct (_ && _); simpl; auto 6.
Qed.

Lemma more_disabled_enable root (d : Dom) : more_disabled (set_buttons false root d) d.
Proof.
  split; [symmetry; apply set_buttons_length |].
  intros i e'. rewrite set_buttons_lookup.
  destruct (d !! i) as [e|]; [| discriminate]. simpl. intros [= <-].
  exists e. split; [reflexivity |].
  destruct (_ && _); simpl; auto 6. repeat split. discriminate.
Qed.

Lemma submit_control_set_buttons b root (d : Dom) root' n :
  submit_control (set_buttons b root d) root' n = submit_control d root' n.
Proof.
  destruct b.
  - apply more_disabled_submit_control, more_disabled_disable.
  - symmetry. apply more_disabled_submit_control, more_disabled_enable.
Qed.


(** Enabling forgets what was there before. *)
Lemma enable_after b root (d : Dom) :
  set_buttons false root (set_buttons b root d) = set_buttons false root d.
Proof.
  apply list_eq. intros n.
  rewrite !set_buttons_lookup, submit_control_set_buttons.
  destruct (d !! n) as [e|]; [| reflexivity]. simpl.
  destruct (submit_control d root n); simpl; [| reflexivity].
  destruct b; simpl; [destruct (negb _) |]; reflexivity.
Qed.

(** Disabling twice is disabling once. *)
Lemma disable_twice root (d : Dom) :
  set_buttons true root (set_buttons true root d) = set_buttons true root d.
Proof.
  apply list_eq. intros n.
  rewrite (set_buttons_lookup true root (set_buttons true root d)).
  rewrite submit_control_set_buttons.
  destruct (set_buttons true root d !! n) as [e1|] eqn:H1; [| reflexivity].
  simpl. f_equal.
  pose proof H1 as H1'. rewrite set_buttons_lookup in H1'.
  destruct (d !! n) as [e|] eqn:He; [| discriminate]. simpl in H1'.
  destruct (submit_control d root n); simpl in *; [| reflexivity].
  destruct (disabled_by_ancestor d n e) eqn:Hinh; simpl in *.
  - rewrite (more_disabled_by_ancestor _ _ _ _ _ (more_disabled_disable root d)
               He H1 Hinh). reflexivity.
  - injection H1' as <-. destruct (negb _); reflexivity.
Qed.

(** Disabling after enabling is disabling, on a page where no submit control
    of the form is disabled by another element. *)
Lemma disable_after_enable root (d : Dom) :
  (forall n e, d !! n = Some e -> submit_control d root n = true ->
               disabled_by_ancestor d n e = false) ->
  set_buttons true root (set_buttons false root d) = set_buttons true root d.
Proof.
  intros Hfree. apply list_eq. intros n.
  rewrite (set_buttons_lookup true root (set_buttons false root d)).
  rewrite submit_control_set_buttons.
  destruct (set_buttons false root d !! n) as [e0|] eqn:H0.
  - pose proof H0 as H0'. rewrite set_buttons_lookup in H0'.
    rewrite set_buttons_lookup.
    destruct (d !! n) as [e|] eqn:He; [| discriminate]. simpl in *.
    destruct (submit_control d root n) eqn:Hsc; simpl in *.
    + injection H0' as <-. rewrite (Hfree n e He Hsc). simpl.
      destruct (disabled_by_ancestor (set_buttons false root d) n
                  (set_disabled false e)) eqn:Hinh; [| reflexivity].
      apply (more_disabled_by_ancestor _ _ _ _ e (more_disabled_enable root d) H0 He)
        in Hinh.
      rewrite (Hfree n e He Hsc) in Hinh. discriminate.
    + injection H0' as <-. reflexivity.
  - rewrite set_buttons_lookup in H0 |- *.
    destruct (d !! n); [discriminate | reflexivity].
Qed.

(** X1: the default enable hook ([b] false) and the default disable hook
    ([b] true) never throw, record no call and leave the user's state alone.
    On the page they touch the submit controls of the form only: the nodes
    inside the form that are a [button], [input], [select], [textarea],
    [option], [optgroup] or [fieldset] with a [type] attribute equal to
    "submit", whatever the case of its letters.  The enable hook clears the
    [disabled] flag of each of them.  The disable hook sets the flag of each
    of them that no other element disables: one inside a disabled
    [fieldset] is left as it is.  No other node and no other property is
    changed. *)
Theorem default_toggle_page (b : bool) config s :
  exists s',
    (if b then default_disable config else default_enable config) s = Ret VUndef s' /\
    calls s' = calls s /\
    ext (world s') = ext (world s) /\
    length (dom (world s')) = length (dom (world s)) /\
    forall n e,
      dom (world s) !! n = Some e ->
      dom (world s') !! n =
      Some (if submit_control (dom (world s)) (form config) n
               && (negb b || negb (disabled_by_ancestor (dom (world s)) n e))
            then set_disabled b e else e).
Proof.
  exists (set_dom (set_buttons b (form config) (dom (world s))) s).
  split; [destruct b; [apply default_disable_Ret | apply default_enable_Ret] |].
  split; [reflexivity |]. split; [reflexivity |]. split.
  - simpl. apply set_buttons_length.
  - intros n e He. simpl. rewrite set_buttons_lookup, He. reflexivity.
Qed.

(** X2: the two default hooks do not undo one another.  Enabling after
    disabling ends as enabling alone does: a submit button that was disabled
    before is enabled after, its former state is not restored.  Each hook
    run twice is the hook run once.  Disabling after enabling is disabling
    on a page where no submit control of the form is disabled by another
    element (a disabled [fieldset] around it, a disabled [optgroup] above
    it). *)
Theorem default_toggle_compose config s :
  (default_disable config ;; default_enable config) s = default_enable config s /\
  (default_enable config ;; default_enable config) s = default_enable config s /\
  (default_disable config ;; default_disable config) s = default_disable config s /\
  ((forall n e,
      dom (world s) !! n = Some e ->
      submit_control (dom (world s)) (form config) n = true ->
      disabled_by_ancestor (dom (world s)) n e = false) ->
   (default_enable config ;; default_disable config) s = default_disable config s).
Proof.
  unfold bind.
  repeat (rewrite ?default_enable_Ret, ?default_disable_Ret; simpl).
  rewrite !enable_after, disable_twice.
  split; [reflexivity |]. split; [reflexivity |]. split; [reflexivity |].
  intros Hfree. rewrite (disable_after_enable _ _ Hfree). reflexivity.
Qed.

(** ** What the default Error Renderer leaves alone *)

Lemma set_innerHTML_same e : set_innerHTML (innerHTML e) e = e.
Proof. destruct e. reflexivity. Qed.

(** X3: the default Error Renderer never throws, whatever the error list,
    records no call and leaves the user's state alone.  On the page, of the
    nodes that are not inside an error slot of the form, it changes the
    content and nothing else, and the content of the error slots only: such
    a node that is no error slot is left exactly as it was.  Of a node
    inside an error slot nothing is said: writing the slot detaches it. *)
Theorem default_renderErrors_frame config errors s :
  exists s',
    default_renderErrors config errors s = Ret VUndef s' /\
    calls s' = calls s /\
    ext (world s') = ext (world s) /\
    length (dom (world s')) = length (dom (world s)) /\
    forall n e,
      dom (world s) !! n = Some e ->
      Forall (fun slot => descendant (dom (world s)) slot n = false)
             (error_slots config s) ->
      exists html,
        dom (world s') !! n = Some (set_innerHTML html e) /\
        (n ∉ error_slots config s -> html = innerHTML e).
Proof.
  exists (set_dom (render config errors (dom (world s))) s).
  split; [apply default_renderErrors_Ret |].
  split; [reflexivity |]. split; [reflexivity |]. split.
  - simpl. apply foldl_update_length.
  - intros n e He _. simpl. rewrite render_lookup, He.
    destruct (selected (dom (world s)) (form config) sel_sk_error n) eqn:Hs.
    + eexists. split; [reflexivity |].
      intros Hn. destruct Hn. apply elem_of_querySelectorAll, Hs.
    + exists (innerHTML e). rewrite set_innerHTML_same. auto.
Qed.

Lemma find_filter {A} (p q : A -> bool) (l : list A) :
  (forall x, p x = true -> q x = true) ->
  List.find p (List.filter q l) = List.find p l.
Proof.
  intros Hpq. induction l as [|x l IH]; simpl; [reflexivity |].
  destruct (q x) eqn:Hq; simpl.
  - destruct (p x); [reflexivity | exact IH].
  - destruct (p x) eqn:Hp; [| exact IH].
    apply Hpq in Hp. congruence.
Qed.

(** X4: errors for a field that no error slot of the form names are dropped
    without a trace: the default Error Renderer does with the whole list
    what it does with the list without them. *)
Theorem default_renderErrors_ignores_unslotted config errors s f :
  Forall (fun slot => dom (world s) !! slot ≫= dataset_skError <> Some f)
         (error_slots config s) ->
  default_renderErrors config errors s =
  default_renderErrors config
    (List.filter (fun error => negb (String.eqb (field error) f)) errors) s.
Proof.
  intros Hslots. rewrite !default_renderErrors_Ret. f_equal. f_equal.
  apply list_eq. intros n. rewrite !render_lookup.
  destruct (selected (dom (world s)) (form config) sel_sk_error n) eqn:Hs;
    [| reflexivity].
  apply elem_of_querySelectorAll in Hs.
  rewrite Forall_forall in Hslots. specialize (Hslots n Hs).
  destruct (dom (world s) !! n) as [e|]; [| reflexivity]. simpl in *.
  unfold render_slot, slot_message. rewrite find_filter; [reflexivity |].
  intros error Hp. apply bool_decide_eq_true_1 in Hp.
  apply negb_true_iff, String.eqb_neq. intros Heq. apply Hslots.
  rewrite <- Hp, Heq. reflexivity.
Qed.

(** ** How [submit] ends *)

(** X6: when the steps before the network call complete and the enable hook
    is the default one, the promise of the submit routine resolves, whatever
    the client and the other hooks do: a transport failure or an exception
    of a hook after the call is never visible to the caller of [submit]. *)
Theorem submit_resolves config s formData s1 :
  prologue config s = Ret formData s1 ->
  enable config = Default ->
  resolves (submit config s).
Proof.
  intros Hp Hen. unfold resolves.
  assert (Hfin : forall (body : M unit) s2,
            (exists s3, body s2 = Ret tt s3) ->
            exists s', try_finally body (call_enable (enable config) config) s2
                       = Ret tt s').
  { intros body s2 (s3 & Hb). unfold try_finally. rewrite Hb, Hen.
    destruct (call_enable_default_Ret config s3) as (s4 & H4).
    rewrite H4. eauto. }
  destruct (await_submitForm (request config formData) s1) as [result s2|e s2] eqn:Ha.
  - rewrite (submit_resolved _ _ _ _ _ _ Hp Ha). apply Hfin.
    unfold try_catch. destruct (classify config result s2) as [[] s3|v s3].
    + eauto.
    + rewrite rescue_Ret. eauto.
  - rewrite (submit_rejected _ _ _ _ _ _ Hp Ha). apply Hfin.
    rewrite rescue_Ret. eauto.
Qed.

Lemma emits_prologue config : emits (before_call config) (prologue config).
Proof.
  unfold prologue.
  apply emits_bind; [apply silent_emits, silent_new_FormData | intros fd0].
  apply emits_bind.
  { destruct (String.eqb (typeof (data config)) "object").
    - eapply emits_weaken; [| apply emits_append_data].
      intros ev H. left. exact H.
    - apply silent_emits, silent_ret. }
  intros fd.
  apply emits_bind;
    [apply emits_call; [auto with quiet | right; left; reflexivity] | intros _].
  apply emits_bind;
    [apply emits_call; [auto with quiet | right; right; left; reflexivity] | intros _].
  apply emits_bind;
    [apply emits_call; [apply silent_ret | right; right; right; reflexivity] | intros _].
  apply emits_bind; [apply silent_emits, silent_logger_log | intros _].
  apply silent_emits, silent_ret.
Qed.

(** X7: an exception thrown before the [try] statement (by [new FormData],
    a function entry of [data], the clearing call of the Error Renderer, the
    disable hook or the submit-started hook) leaves [submit] as it is, in
    the state where it was thrown: the promise rejects with it, the client
    is not called, and neither the failure callback nor the enable hook
    is. *)
Theorem submit_rejects_before_call config s e s1 :
  prologue config s = Throw e s1 ->
  submit config s = Throw e s1 /\
  Forall (before_call config) (new_calls s s1).
Proof.
  intros Hp. split.
  - rewrite submit_unfold. apply exec_bind_Throw, Hp.
  - destruct (emits_prologue config s) as (l & Hl & HF).
    rewrite (exec_Throw _ _ _ _ Hp) in Hl.
    rewrite (new_calls_app _ _ _ Hl). exact HF.
Qed.

Lemma append_data_literals config before rest formData s :
  Forall (fun entry : string * JsVal => forall n, snd entry <> VFun n) before ->
  exists stored,
    append_data config (before ++ rest) formData s =
    append_data config rest (formData ++ stored) s.
Proof.
  intros H. revert formData. induction H as [|[prop v] before Hv _ IH]; intros formData.
  - exists []. rewrite app_nil_r. reflexivity.
  - simpl in Hv.
    destruct (IH (formData ++ [(prop, VStr (ToString (dom (world s)) v))]))
      as (stored & Hs).
    exists ((prop, VStr (ToString (dom (world s)) v)) :: stored).
    replace (formData ++ (prop, VStr (ToString (dom (world s)) v)) :: stored)
      with ((formData ++ [(prop, VStr (ToString (dom (world s)) v))]) ++ stored)
      by (rewrite <- app_assoc; reflexivity).
    rewrite <- Hs. simpl.
    destruct v; try reflexivity. destruct (Hv f). reflexivity.
Qed.

(** X8: when a function entry of [data] throws, [submit] rejects with what
    it threw, at once: the entries after it are not evaluated, visible
    errors are not cleared, the submit controls are not disabled, no hook
    and no client is called. *)
Theorem submit_data_function_throws config s e before prop n after v w' :
  dom (world s) !! form config = Some e ->
  tagName e = "FORM" ->
  data config = VObj (before ++ (prop, VFun n) :: after) ->
  Forall (fun entry : string * JsVal => forall m, snd entry <> VFun m) before ->
  user n [AConfig config] (world s) = (Abrupt v, w') ->
  submit config s =
  Throw v {| world := w';
             calls := calls s ++ [Call (at_data prop) (Custom n) [AConfig config]];
             diag := diag s |}.
Proof.
  intros He Htag Hdata Hlit Hu.
  rewrite submit_unfold. apply exec_bind_Throw.
  unfold prologue.
  assert (H0 : new_FormData (form config) s =
               Ret (form_entries (dom (world s)) (form config)) s).
  { unfold new_FormData, bind, get_dom. simpl. rewrite He, Htag. reflexivity. }
  rewrite (exec_bind_Ret _ _ _ _ _ H0).
  apply exec_bind_Throw.
  rewrite Hdata. simpl.
  destruct (append_data_literals config _ ((prop, VFun n) :: after)
              (form_entries (dom (world s)) (form config)) s Hlit) as (stored & ->).
  simpl. apply exec_bind_Throw.
  unfold call, bind, record, run_user. simpl. rewrite Hu. reflexivity.
Qed.

(** X9: when the bound element is not a form element, [new FormData]
    refuses it and [submit] rejects at once, with the state as it was: no
    hook is called, no request is sent. *)
Theorem submit_rejects_non_form config s :
  (forall e, dom (world s) !! form config = Some e -> tagName e <> "FORM") ->
  exists v, submit config s = Throw v s.
Proof.
  intros Hnot. eexists. rewrite submit_unfold. apply exec_bind_Throw.
  unfold prologue. apply exec_bind_Throw.
  unfold new_FormData, bind, get_dom. simpl.
  destruct (dom (world s) !! form config) as [e|]; [| reflexivity].
  specialize (Hnot e eq_refl). apply String.eqb_neq in Hnot. rewrite Hnot.
  reflexivity.
Qed.

(** ** A success on a form that has no parent *)



(** ** The page while the call is awaited *)



Lemma call_enable_default_dom config s v s' :
  call_enable Default config s = Ret v s' ->
  dom (world s') = set_buttons false (form config) (dom (world s)).
Proof.
  unfold call_enable, call, bind, record. simpl.
  rewrite default_enable_Ret. intros [= _ <-]. reflexivity.
Qed.




(** ** Binding, step by step *)

Lemma call_onInit_calls config s :
  calls (exec (call_onInit (onInit config) config) s) =
  calls s ++ [Call at_onInit (onInit config) [AConfig config]].
Proof. apply call_calls, silent_ret. Qed.

(** X12: [setup] attaches the listener first, then calls the enable hook,
    then the init hook.  If the enable hook throws, [setup] throws with it,
    the init hook is not called, and the listener attached before is not
    taken back.  Only when both hooks return does [setup] return, and then
    it returns [true]. *)
Theorem setup_order config s :
  (forall v s1,
     call_enable (enable config) config (bound config s) = Throw v s1 ->
     setup config s = Throw v s1 /\
     new_calls s s1 = [Call at_enable (enable config) [AConfig config]]) /\
  (forall u s1,
     call_enable (enable config) config (bound config s) = Ret u s1 ->
     new_calls s (exec (setup config) s) =
       [Call at_enable (enable config) [AConfig config];
        Call at_onInit (onInit config) [AConfig config]] /\
     forall u' s2,
       call_onInit (onInit config) config s1 = Ret u' s2 ->
       setup config s = Ret true s2).
Proof.
  split.
  - intros v s1 Hen. split.
    + rewrite setup_bound. apply exec_bind_Throw, Hen.
    + apply new_calls_app.
      rewrite <- (exec_Throw _ _ _ _ Hen), call_enable_calls. reflexivity.
  - intros u s1 Hen. split.
    + apply new_calls_app. unfold exec. rewrite setup_bound.
      rewrite (exec_bind_Ret _ _ _ _ _ Hen).
      change (state_of (?m s1)) with (exec m s1). rewrite exec_bind.
      pose proof (call_onInit_calls config s1) as Hin.
      pose proof (call_enable_calls config (bound config s)) as Hc.
      rewrite (exec_Ret _ _ _ _ Hen) in Hc. unfold exec in Hin.
      destruct (call_onInit (onInit config) config s1) as [u' s2|v s2];
        simpl in *; unfold exec, ret; simpl; rewrite Hin, Hc, <- app_assoc;
        reflexivity.
    + intros u' s2 Hin. rewrite setup_bound.
      rewrite (exec_bind_Ret _ _ _ _ _ Hen), (exec_bind_Ret _ _ _ _ _ Hin).
      reflexivity.
Qed.

Lemma call_enable_default_state config s :
  call_enable Default config s =
  Ret VUndef
    (set_dom (set_buttons false (form config) (dom (world s)))
       {| world := world s;
          calls := calls s ++ [Call at_enable Default [AConfig config]];
          diag := diag s |}).
Proof.
  unfold call_enable, call, bind, record. simpl.
  rewrite default_enable_Ret. reflexivity.
Qed.

(** X13: [init] with an [id], a form element given by reference, and the
    default enable and init hooks returns [true].  It adds one listener,
    which holds the merged configuration, after the listeners the form has
    (binding the same form again adds another), clears the [disabled] flag
    of every submit control of the form (the form controls inside it with a
    [type] attribute equal to "submit", whatever the case of its letters),
    changes nothing else of the page, and calls the enable hook before the
    init hook. *)
Theorem init_binds_form props s ident n e :
  p_id props = Some ident -> ident <> "" ->
  p_element props = Some (Node n) ->
  dom (world s) !! n = Some e ->
  tagName e = "FORM" ->
  p_enable props = None ->
  p_onInit props = None ->
  let config := assign props n in
  exists s',
    init props s = Ret true s' /\
    dom (world s') =
      set_buttons false n
        (<[n := add_listener (SubmitListener config) e]> (dom (world s))) /\
    ext (world s') = ext (world s) /\
    new_calls s s' = [Call at_enable Default [AConfig config];
                      Call at_onInit Default [AConfig config]].
Proof.
  intros Hid Hident Hel He Htag Hen Hin config.
  assert (Hinit : init props s = setup config s).
  { unfold init. rewrite Hid, Hel. simpl.
    apply String.eqb_neq in Hident. rewrite Hident.
    unfold getFormElement, get_dom, tagName_is, bind. simpl.
    rewrite He. simpl. rewrite Htag. reflexivity. }
  rewrite Hinit, setup_bound.
  assert (Hen' : enable config = Default) by (unfold config, assign; simpl; rewrite Hen; reflexivity).
  assert (Hin' : onInit config = Default) by (unfold config, assign; simpl; rewrite Hin; reflexivity).
  rewrite Hen', Hin'.
  rewrite (exec_bind_Ret _ _ _ _ _ (call_enable_default_state config (bound config s))).
  eexists. split; [reflexivity |].
  split; [| split; [reflexivity |]].
  - simpl. unfold update. fold config. rewrite He. reflexivity.
  - apply new_calls_app. simpl. rewrite <- app_assoc. reflexivity.
Qed.

(** X14: the configuration errors of [init], in the order they are checked.
    An [id] that is missing or the empty string gives "You must define an
    `id` property", whatever the element is; with an [id], an [element]
    that is missing or the empty string gives "You must define an `element`
    property"; with both, a selector that finds nothing gives "Element
    `...` not found" with the selector in it.  The state is left as it
    was. *)
Theorem init_error_messages props s :
  (p_id props = None \/ p_id props = Some "" ->
   init props s = Throw (VError "You must define an `id` property") s) /\
  (forall ident,
     p_id props = Some ident -> ident <> "" ->
     p_element props = None \/ p_element props = Some (Selector "") ->
     init props s = Throw (VError "You must define an `element` property") s) /\
  (forall ident sel,
     p_id props = Some ident -> ident <> "" ->
     p_element props = Some (Selector sel) -> sel <> "" ->
     document_querySelector (dom (world s)) sel = found None ->
     init props s = Throw (VError ("Element `" +:+ sel +:+ "` not found")) s).
Proof.
  split; [| split].
  - intros [H|H]; unfold init; rewrite H; reflexivity.
  - intros ident Hid Hident Hel. unfold init. rewrite Hid. simpl.
    apply String.eqb_neq in Hident. rewrite Hident.
    destruct Hel as [H|H]; rewrite H; reflexivity.
  - intros ident sel Hid Hident Hel Hsel Hq. unfold init. rewrite Hid, Hel. simpl.
    apply String.eqb_neq in Hident, Hsel. rewrite Hident, Hsel.
    unfold getFormElement, querySelector, get_dom, tagName_is, bind. simpl.
    rewrite Hq. reflexivity.
Qed.

(** X15: an exception of [document.querySelector] (a selector that does not
    parse) is not caught by [init]: it leaves [init] as it is, and nothing
    is bound. *)
Theorem init_invalid_selector props s ident el v :
  p_id props = Some ident -> ident <> "" ->
  p_element props = Some el ->
  falsy_element (Some el) = false ->
  get_tagName (dom (world s)) el <> Some "FORM" ->
  document_querySelector (dom (world s)) (toString (dom (world s)) el) = invalid v ->
  init props s = Throw v s.
Proof.
  intros Hid Hident Hel Htruthy Htag Hq. unfold init. rewrite Hid, Hel, Htruthy.
  simpl. apply String.eqb_neq in Hident. rewrite Hident.
  unfold getFormElement, querySelector, get_dom, tagName_is, bind. simpl.
  destruct (get_tagName (dom (world s)) el) as [t|] eqn:Ht.
  - destruct (String.eqb_spec t "FORM") as [->|_]; [congruence |].
    rewrite Hq. reflexivity.
  - rewrite Hq. reflexivity.
Qed.

(** ** The listener *)

Lemma emits_attempt config formData :
  emits (fun ev => ev <> PreventDefault) (attempt config formData).
Proof.
  intros s. destruct (attempt_calls config formData s) as (P & HP & HF).
  eexists. split; [exact HP |].
  constructor; [discriminate |].
  apply Forall_app. split; [| repeat constructor; discriminate].
  eapply Forall_impl; [exact HF |]. intros ev Hev ->. discriminate.
Qed.

(** X16: the listener of [setup] calls [preventDefault] on the event before
    anything else, once, so the default of the browser is suppressed even
    when [submit] then throws at its first step; and when the listener
    returns, it returns [true]. *)
Theorem listener_prevents_default config s :
  (exists l,
     new_calls s (exec (run_listener (SubmitListener config)) s) = PreventDefault :: l /\
     Forall (fun ev => ev <> PreventDefault) l) /\
  (forall b s', run_listener (SubmitListener config) s = Ret b s' -> b = true).
Proof.
  split.
  - assert (Hsub : emits (fun ev => ev <> PreventDefault) (submit config)).
    { intros s0. unfold exec. rewrite submit_unfold.
      apply (emits_bind (fun ev => ev <> PreventDefault)
               (prologue config) (attempt config)).
      - eapply emits_weaken; [| apply emits_prologue].
        intros ev [(prop & n & ->)|[->|[->| ->]]]; discriminate.
      - apply emits_attempt. }
    destruct (Hsub {| world := world s; calls := calls s ++ [PreventDefault];
                      diag := diag s |}) as (l & Hl & HF).
    exists l. split; [| exact HF]. apply new_calls_app.
    unfold exec, run_listener, bind, record in *. simpl in *.
    destruct (submit config _) as [[] s1|v s1]; simpl in *;
      rewrite Hl, <- app_assoc; reflexivity.
  - intros b s'. unfold run_listener, bind, record. simpl.
    destruct (submit config _) as [[] s1|v s1]; [| discriminate].
    intros [= <- _]. reflexivity.
Qed.

(** ** The page at the end of a submission *)



(** X18: with the default enable hook, a transport failure ends the
    submission with the promise resolved and the page as the client left
    it, but for the submit controls of the form (the form controls inside it
    with a [type] attribute equal to "submit"), whose [disabled] flag is
    cleared: no slot is written after the failure. *)
Theorem page_after_transport_failure config s formData s1 e s2 :
  prologue config s = Ret formData s1 ->
  await_submitForm (request config formData) s1 = Throw e s2 ->
  enable config = Default ->
  exists s',
    submit config s = Ret tt s' /\
    dom (world s') = set_buttons false (form config) (dom (world s2)) /\
    ext (world s') = ext (world s2).
Proof.
  intros Hp Ha Hen.
  rewrite (submit_rejected _ _ _ _ _ _ Hp Ha).
  unfold try_finally. rewrite rescue_Ret, Hen, call_enable_default_state.
  eexists. split; [reflexivity |]. split; reflexivity.
Qed.

End Forms.

(** ** The module at work on the demonstration page *)

#[local] Existing Instance demo_host.

(** With a submit callback that throws, the invocation ends after three
    calls; the enable hook is not among them. *)
Example onSubmit_throws_trace :
  new_calls start (exec (submit one_word demo_user rejects config_onSubmit_throws) start) =
  [ Call at_renderErrors Default [AConfig config_onSubmit_throws; AErrors []];
    Call at_disable Default [AConfig config_onSubmit_throws];
    Call at_onSubmit (Custom 0) [AConfig config_onSubmit_throws] ].
Proof. vm_compute. reflexivity. Qed.

(** The promise rejects with what the callback threw, and the submit button
    of the form stays disabled. *)
Example onSubmit_throws_outcome :
  exists s',
    submit one_word demo_user rejects config_onSubmit_throws start
      = Throw (VError "boom") s' /\
    disabled <$> dom (world s') !! 4%nat = Some true.
Proof. eexists. split; vm_compute; reflexivity. Qed.

(** C2, counterexample: the submit-started hook throws; the invocation rejects
    with the controls disabled and the enable hook is never called. *)
Lemma submit_cleanup_counterexample :
  ~ lifecycle_cleanup config_onSubmit_throws
      (new_calls start
         (exec (submit one_word demo_user rejects config_onSubmit_throws) start)).
Proof.
  rewrite onSubmit_throws_trace. intros [_ (before & H & _)].
  apply (f_equal last) in H. rewrite last_snoc in H. discriminate H.
Qed.

(** C2, witness: the plain configuration and a client whose call fails. *)
Lemma submit_cleanup_witness :
  exists formData s1,
    prologue one_word demo_user plain_config start = Ret formData s1 /\
    let l := new_calls start (exec (submit one_word demo_user rejects plain_config) start) in
    SubmitForm (request plain_config formData) ∈ l /\
    lifecycle_cleanup plain_config l.
Proof.
  eexists _, _. split.
  - vm_compute. reflexivity.
  - eapply (submit_cleanup_after_prologue one_word demo_user rejects plain_config start).
    vm_compute. reflexivity.
Defined.

(** C1: the configuration holds a failure callback of the user's (function
    number 1, which leaves a mark in the user's state) and the call of the
    client fails.  The failure callback that is called is the default one of
    the module; the user's is not called and its mark is not left. *)
Theorem configured_onFailure_not_called :
  let final := exec (submit one_word demo_user rejects config_onFailure) start in
  onFailure config_onFailure = Custom 1 /\
  new_calls start final =
    [ Call at_renderErrors Default [AConfig config_onFailure; AErrors []];
      Call at_disable Default [AConfig config_onFailure];
      Call at_onSubmit Default [AConfig config_onFailure];
      SubmitForm (request config_onFailure [("email", VStr "a@b")]);
      Call at_onFailure Default [AConfig config_onFailure; AVal (VError "network")];
      Call at_enable Default [AConfig config_onFailure] ] /\
  ext (world final) = VUndef.
Proof. vm_compute. auto. Qed.

(** With an Error Renderer that throws on the errors of the response, the
    validation-error hook is skipped. *)
Example renderer_throws_trace :
  let cl := answers 422 invalid_body in
  let s2 := exec (formData <- prologue one_word demo_user config_renderer_throws ;;
                  await_submitForm cl (request config_renderer_throws formData)) start in
  new_calls s2 (exec (submit one_word demo_user cl config_renderer_throws) start) =
  [ Call at_renderErrors (Custom 3) [AConfig config_renderer_throws; AErrors [email_invalid]];
    Call at_onFailure Default [AConfig config_renderer_throws; AVal (VError "cannot render")];
    Call at_enable Default [AConfig config_renderer_throws] ].
Proof. vm_compute. reflexivity. Qed.

(** C3, counterexample: a response with status 422 and one error, and an
    Error Renderer of the user's that throws on it.  The validation-error
    hook is not called. *)
Lemma validation_failure_counterexample :
  let cl := answers 422 invalid_body in
  let s2 := exec (formData <- prologue one_word demo_user config_renderer_throws ;;
                  await_submitForm cl (request config_renderer_throws formData)) start in
  ~ rendered_then_reported config_renderer_throws [email_invalid]
      (new_calls s2 (exec (submit one_word demo_user cl config_renderer_throws) start)).
Proof.
  intros cl s2. subst cl s2. rewrite renderer_throws_trace.
  intros (tail & H & _). discriminate H.
Qed.

(** C3, witness: the plain configuration and a response with status 422. *)
Lemma validation_failure_witness :
  let cl := answers 422 invalid_body in
  exists formData s1 s2,
    prologue one_word demo_user plain_config start = Ret formData s1 /\
    await_submitForm cl (request plain_config formData) s1 =
      Ret {| response := {| status := 422 |}; body := invalid_body |} s2 /\
    422 <> 200 /\
    rendered_then_reported plain_config [email_invalid]
      (new_calls s2 (exec (submit one_word demo_user cl plain_config) start)).
Proof.
  intros cl. eexists _, _, _.
  split; [vm_compute; reflexivity |].
  split; [vm_compute; reflexivity |].
  split; [lia |].
  apply (proj2 (proj2 (validation_failure_calls one_word demo_user cl plain_config start
                   _ _ {| response := {| status := 422 |}; body := invalid_body |} _
                   eq_refl eq_refl ltac:(simpl; lia)))).
  reflexivity.
Defined.

(** C8, counterexample: the success callback throws and so does the enable
    hook; the promise of the submit routine rejects. *)
Lemma classification_exception_counterexample :
  let cl := answers 200 empty_body in
  let result := {| response := {| status := 200 |}; body := empty_body |} in
  exists formData s1 s2 v s3,
    prologue one_word demo_user config_hooks_throw start = Ret formData s1 /\
    await_submitForm cl (request config_hooks_throw formData) s1 = Ret result s2 /\
    classification_hook_throws one_word demo_user config_hooks_throw result s2 v s3 /\
    ~ resolves (submit one_word demo_user cl config_hooks_throw start).
Proof.
  intros cl result. eexists _, _, _, _, _.
  split; [vm_compute; reflexivity |].
  split; [vm_compute; reflexivity |].
  split.
  - left. split; [reflexivity | vm_compute; reflexivity].
  - intros [s' H]. vm_compute in H. discriminate H.
Qed.

(** C8, witness: the success callback throws and the enable hook is the
    default one. *)
Lemma classification_exception_witness :
  let cl := answers 200 empty_body in
  let result := {| response := {| status := 200 |}; body := empty_body |} in
  exists formData s1 s2 v s3,
    prologue one_word demo_user config_onSuccess_throws start = Ret formData s1 /\
    await_submitForm cl (request config_onSuccess_throws formData) s1 = Ret result s2 /\
    classification_hook_throws one_word demo_user config_onSuccess_throws result s2 v s3 /\
    new_calls s3 (exec (submit one_word demo_user cl config_onSuccess_throws) start) =
      [Call at_onFailure Default [AConfig config_onSuccess_throws; AVal v];
       Call at_enable Default [AConfig config_onSuccess_throws]] /\
    resolves (submit one_word demo_user cl config_onSuccess_throws start).
Proof.
  intros cl result.
  assert (Hp : exists formData s1,
    prologue one_word demo_user config_onSuccess_throws start = Ret formData s1)
    by (eexists _, _; vm_compute; reflexivity).
  destruct Hp as (formData & s1 & Hp).
  assert (Ha : exists s2,
    await_submitForm cl (request config_onSuccess_throws formData) s1 = Ret result s2).
  { eexists. unfold await_submitForm, bind, record, cl, answers. simpl. reflexivity. }
  destruct Ha as (s2 & Ha).
  assert (Ht : classification_hook_throws one_word demo_user config_onSuccess_throws result s2
                 (VError "boom")
                 {| world := world s2;
                    calls := calls s2 ++ [Call at_onSuccess (Custom 0)
                               [AConfig config_onSuccess_throws; ABody empty_body]];
                    diag := diag s2 ++ [("f1", "Submitted")] |}).
  { left. split; reflexivity. }
  destruct (classification_exception_caught one_word demo_user cl
              config_onSuccess_throws start formData s1 result s2 _ _ Hp Ha Ht)
    as (Hcalls & _ & Hres).
  exists formData, s1, s2. eexists _, _.
  split; [exact Hp |]. split; [exact Ha |]. split; [exact Ht |].
  split; [exact Hcalls |].
  apply Hres. reflexivity.
Defined.

(** C4, counterexample: a response with status 200 for a form that has no
    parent node.  The default success callback does not replace the form: it
    throws when it reads [replaceChild] of the parent, which is [null], and
    the form stays as it was. *)
Lemma success_branch_counterexample :
  let cl := answers 200 empty_body in
  let result := {| response := {| status := 200 |}; body := empty_body |} in
  exists formData s1 s2,
    prologue one_word demo_user config_detached start_detached = Ret formData s1 /\
    await_submitForm cl (request config_detached formData) s1 = Ret result s2 /\
    status (response result) = 200 /\
    onSuccess config_detached = Default /\
    ~ form_replaced demo_user config_detached (body result)
        (logged (id config_detached) "Submitted" s2) /\
    dom (world (exec (submit one_word demo_user cl config_detached) start_detached))
      !! form config_detached = Some (element "FORM" None).
Proof.
  intros cl result. eexists _, _, _.
  split; [vm_compute; reflexivity |].
  split; [vm_compute; reflexivity |].
  split; [reflexivity |]. split; [reflexivity |]. split.
  - intros (e & s' & _ & H & _). vm_compute in H. discriminate H.
  - vm_compute. reflexivity.
Qed.

(** C4, witness: the plain configuration and a response with status 200 and
    an empty body; the form, node 1, has the body of the page, node 0, as its
    parent. *)
Lemma success_branch_witness :
  let cl := answers 200 empty_body in
  let result := {| response := {| status := 200 |}; body := empty_body |} in
  exists formData s1 s2,
    prologue one_word demo_user plain_config start = Ret formData s1 /\
    await_submitForm cl (request plain_config formData) s1 = Ret result s2 /\
    status (response result) = 200 /\
    (exists tail,
       new_calls s2 (exec (submit one_word demo_user cl plain_config) start) =
       Call at_onSuccess Default [AConfig plain_config; ABody empty_body] :: tail) /\
    Forall renders_no_error
      (new_calls start (exec (submit one_word demo_user cl plain_config) start)) /\
    exists s3,
      call_onSuccess demo_user Default plain_config empty_body
        (logged "f1" "Submitted" s2) = Ret VUndef s3 /\
      dom (world s3) =
        <[1%nat := set_parentNode None (element "FORM" (Some 0%nat))]> (dom (world s2))
        ++ [thank_you (Some 0%nat)].
Proof.
  intros cl result. eexists _, _, _.
  split; [vm_compute; reflexivity |].
  split; [vm_compute; reflexivity |].
  split; [reflexivity |].
  destruct (success_branch one_word demo_user cl plain_config start _ _ result _
              eq_refl eq_refl eq_refl) as (H1 & H2 & H3).
  split; [exact H1 |]. split; [exact H2 |].
  exact (H3 (element "FORM" (Some 0%nat)) 0%nat eq_refl eq_refl eq_refl eq_refl).
Defined.

(** C5, counterexample: the custom message configured for the code is the
    empty string.  The specification's words give the empty string as the
    content of the slot; the default Error Renderer writes the fallback. *)
Lemma default_renderErrors_slot_counterexample :
  let shown :=
    content (exec (default_renderErrors one_word config_empty_message [email_invalid])
                  start) 3 in
  (3%nat ∈ error_slots config_empty_message start) /\
  custom_message config_empty_message "email" "invalid" = Some "" /\
  shown = Some "This field is invalid" /\
  shown <> Some (message_by_spec one_word config_empty_message [email_invalid] "email").
Proof.
  split; [apply elem_of_querySelectorAll; reflexivity |].
  vm_compute. repeat split. discriminate.
Qed.

(** C5, witness: a custom message that is not empty is written as it is. *)
Lemma default_renderErrors_slot_witness :
  dom (world start) !! 3%nat = Some email_slot /\
  3%nat ∈ error_slots config_custom_message start /\
  dataset_skError email_slot = Some "email" /\
  content (exec (default_renderErrors one_word config_custom_message [email_invalid])
                start) 3 = Some "Please check the address".
Proof.
  assert (Hin : 3%nat ∈ error_slots config_custom_message start)
    by (apply elem_of_querySelectorAll; reflexivity).
  split; [reflexivity |]. split; [exact Hin |]. split; [reflexivity |].
  refine (proj1 (proj2 (default_renderErrors_slot one_word config_custom_message
                  [email_invalid] start 3%nat email_slot "email" eq_refl Hin eq_refl)
                  [] email_invalid [] eq_refl _ eq_refl)
                "Please check the address" _ _).
  - constructor.
  - vm_compute. reflexivity.
  - discriminate.
Defined.

(** An error whose code, lower-cased, is "constructor": no message is
    configured, and the slot shows neither a message nor the fallback but
    the text of the member every plain object inherits under that name. *)
Example inherited_member_shown :
  custom_message plain_config "email" "constructor" = None /\
  content (exec (default_renderErrors one_word plain_config [email_constructor]) start) 3
    = Some "function Object() { [native code] }".
Proof. vm_compute. auto. Qed.

(** On the demonstration page: after the error of the response is shown, a
    call with the empty list empties the slot. *)
Example default_renderErrors_clears :
  content (exec (default_renderErrors one_word plain_config [email_invalid]) start) 3
    = Some "This field is invalid" /\
  content (exec (default_renderErrors one_word plain_config [email_invalid] ;;
                 default_renderErrors one_word plain_config []) start) 3
    = Some "".
Proof. vm_compute. auto. Qed.

(** C6, witness: [init] with no [id]. *)
Lemma init_configuration_error_witness :
  p_id props_empty = None /\
  exists e, init demo_user demo_querySelector props_empty start = Throw e start.
Proof.
  split; [reflexivity |].
  apply (init_configuration_error demo_user demo_querySelector props_empty start).
  left. reflexivity.
Defined.

(** C9, witness: the form of the page given as a node is taken as it is; the
    selector "#box" finds node 5, a [div], and [init] binds it. *)
Lemma getFormElement_tag_check_witness :
  getFormElement demo_querySelector (Node 1) start = Ret (Some 1%nat) start /\
  tagName <$> page !! 5%nat = Some "DIV" /\
  let config := assign props_box 5 in
  init demo_user demo_querySelector props_box start =
  (call_enable demo_user (enable config) config ;;
   call_onInit demo_user (onInit config) config ;;
   ret true) (bound config start).
Proof.
  destruct (getFormElement_tag_check demo_user demo_querySelector) as (Ha & _ & Hc).
  split; [| split].
  - apply (Ha start 1%nat (element "FORM" (Some 0%nat))); reflexivity.
  - reflexivity.
  - apply (Hc props_box start "f1" "#box" 5%nat);
      first [reflexivity | discriminate].
Defined.



(** The scenarios of the specification on the demonstration page.  A response
    with status 422 and one error for [email]: the slot shows the fallback
    message and the button ends enabled. *)
Example scenario_validation_error :
  let final := exec (submit one_word demo_user (answers 422 invalid_body) plain_config) start in
  content final 3 = Some "This field is invalid" /\
  disabled <$> dom (world final) !! 4%nat = Some false.
Proof. vm_compute. auto. Qed.

(** A response with status 200: the form is detached and the new element is
    under the body of the page. *)
Example scenario_success :
  let final := exec (submit one_word demo_user (answers 200 empty_body) plain_config) start in
  parentNode <$> dom (world final) !! 1%nat = Some None /\
  dom (world final) !! 6%nat = Some (thank_you (Some 0%nat)).
Proof. vm_compute. auto. Qed.

(** While the call is awaited, the button is disabled. *)
Example scenario_submitting :
  exists formData s1,
    prologue one_word demo_user plain_config start = Ret formData s1 /\
    disabled <$> dom (world s1) !! 4%nat = Some true.
Proof. eexists _, _. split; vm_compute; reflexivity. Qed.

(** ** More of the module at work *)

(** X1, witness: the button that is disabled in the page is a submit control
    of the form; the default enable hook enables it. *)
Lemma default_toggle_page_witness :
  submit_control page_locked 1 6 = true /\
  exists s',
    default_enable plain_config start_locked = Ret VUndef s' /\
    disabled <$> dom (world s') !! 6%nat = Some false.
Proof.
  split; [reflexivity |].
  destruct (default_toggle_page false plain_config start_locked)
    as (s' & H1 & _ & _ & _ & H5).
  exists s'. split; [exact H1 |].
  rewrite (H5 6%nat _ eq_refl). reflexivity.
Defined.

(** The default disable hook on a page with a disabled [fieldset]: the
    input with [type=SUBMIT] is disabled; the link with [type=submit], the
    button without a [type] and the button inside the [fieldset] are left as
    they are. *)
Example default_disable_picks :
  exists s',
    default_disable plain_config start_fieldset = Ret VUndef s' /\
    disabled <$> dom (world s') = [false; false; true; true; false; true; false].
Proof. eexists. split; vm_compute; reflexivity. Qed.

(** Inside a disabled [fieldset], a submit button that has the [disabled]
    attribute loses it when the form is enabled and does not get it back
    when the form is disabled: disabling after enabling is not disabling. *)
Example disable_after_enable_differs :
  (default_enable plain_config ;; default_disable plain_config) start_fieldset
  <> default_disable plain_config start_fieldset.
Proof. vm_compute. discriminate. Qed.

(** X2, witness: on the demonstration page no element disables another. *)
Lemma default_toggle_compose_witness :
  (forall n e,
     dom (world start) !! n = Some e ->
     submit_control (dom (world start)) (form plain_config) n = true ->
     disabled_by_ancestor (dom (world start)) n e = false) /\
  (default_enable plain_config ;; default_disable plain_config) start
  = default_disable plain_config start.
Proof.
  assert (Hfree : forall n e,
     dom (world start) !! n = Some e ->
     submit_control (dom (world start)) (form plain_config) n = true ->
     disabled_by_ancestor (dom (world start)) n e = false).
  { intros n e He _.
    do 6 (destruct n as [|n]; [injection He as <-; reflexivity |]).
    discriminate He. }
  split; [exact Hfree |].
  exact (proj2 (proj2 (proj2 (default_toggle_compose plain_config start))) Hfree).
Defined.

(** X3, witness: the button of the page is no error slot and is inside none;
    the default Error Renderer leaves it as it is. *)
Lemma default_renderErrors_frame_witness :
  (4%nat ∉ error_slots plain_config start) /\
  Forall (fun slot => descendant (dom (world start)) slot 4 = false)
         (error_slots plain_config start) /\
  exists s',
    default_renderErrors one_word plain_config [email_invalid] start = Ret VUndef s' /\
    dom (world s') !! 4%nat = Some send_button.
Proof.
  assert (Hn : 4%nat ∉ error_slots plain_config start).
  { intros H. apply elem_of_querySelectorAll in H. discriminate H. }
  split; [exact Hn |].
  destruct (default_renderErrors_frame one_word plain_config [email_invalid] start)
    as (s' & H1 & _ & _ & _ & H5).
  split; [change (error_slots plain_config start) with [3%nat]; repeat constructor |].
  exists s'. split; [exact H1 |].
  assert (Hout : Forall (fun slot => descendant (dom (world start)) slot 4 = false)
                        (error_slots plain_config start)).
  { change (error_slots plain_config start) with [3%nat].
    repeat constructor. }
  destruct (H5 4%nat send_button eq_refl Hout) as (html & -> & Hhtml).
  rewrite (Hhtml Hn). reflexivity.
Defined.

(** X4, witness: the page has no slot for the field [name]. *)
Lemma default_renderErrors_ignores_unslotted_witness :
  Forall (fun slot => dom (world start) !! slot ≫= dataset_skError <> Some "name")
         (error_slots plain_config start) /\
  default_renderErrors one_word plain_config [name_required; email_invalid] start =
  default_renderErrors one_word plain_config [email_invalid] start.
Proof.
  assert (H : Forall (fun slot => dom (world start) !! slot ≫= dataset_skError
                                  <> Some "name")
                     (error_slots plain_config start)).
  { change (error_slots plain_config start) with [3%nat].
    repeat constructor. discriminate. }
  split; [exact H |].
  exact (default_renderErrors_ignores_unslotted one_word plain_config
           [name_required; email_invalid] start "name" H).
Defined.

(** X5, witness: the plain configuration and a client whose call fails. *)
Lemma transport_failure_calls_witness :
  exists formData s1 s2,
    prologue one_word demo_user plain_config start = Ret formData s1 /\
    await_submitForm rejects (request plain_config formData) s1
      = Throw (VError "network") s2 /\
    new_calls s2 (exec (submit one_word demo_user rejects plain_config) start) =
    [Call at_onFailure Default [AConfig plain_config; AVal (VError "network")];
     Call at_enable Default [AConfig plain_config]].
Proof.
  eexists _, _, _.
  split; [vm_compute; reflexivity |].
  split; [vm_compute; reflexivity |].
  exact (transport_failure_calls one_word demo_user rejects plain_config start
           _ _ _ _ eq_refl eq_refl).
Defined.

(** X6, witness: the call of the client fails and the promise resolves. *)
Lemma submit_resolves_witness :
  exists formData s1,
    prologue one_word demo_user plain_config start = Ret formData s1 /\
    enable plain_config = Default /\
    resolves (submit one_word demo_user rejects plain_config start).
Proof.
  eexists _, _.
  split; [vm_compute; reflexivity |]. split; [reflexivity |].
  exact (submit_resolves one_word demo_user rejects plain_config start _ _
           eq_refl eq_refl).
Defined.

(** X7, witness: the submit-started callback throws. *)
Lemma submit_rejects_before_call_witness :
  exists s1,
    prologue one_word demo_user config_onSubmit_throws start
      = Throw (VError "boom") s1 /\
    submit one_word demo_user rejects config_onSubmit_throws start
      = Throw (VError "boom") s1 /\
    Forall (before_call config_onSubmit_throws) (new_calls start s1).
Proof.
  eexists. split; [vm_compute; reflexivity |].
  exact (submit_rejects_before_call one_word demo_user rejects
           config_onSubmit_throws start _ _ eq_refl).
Defined.

(** X8, witness: the second entry of [data] is a function that throws; the
    third, a function too, is not called. *)
Lemma submit_data_function_throws_witness :
  submit one_word demo_user rejects config_data_throws start =
  Throw (VError "boom")
        {| world := world start;
           calls := [Call (at_data "stamp") (Custom 0) [AConfig config_data_throws]];
           diag := [] |}.
Proof.
  apply (submit_data_function_throws one_word demo_user rejects config_data_throws
           start (element "FORM" (Some 0%nat)) [("plan", VStr "free")] "stamp" 0%nat
           [("late", VFun 2)] (VError "boom") (world start));
    try reflexivity.
  repeat constructor. discriminate.
Defined.

(** X9, witness: the configuration [init] builds when the selector finds the
    [div] of the page. *)
Lemma submit_rejects_non_form_witness :
  tagName <$> dom (world start) !! form (assign props_box 5) = Some "DIV" /\
  exists v, submit one_word demo_user rejects (assign props_box 5) start = Throw v start.
Proof.
  split; [reflexivity |].
  apply (submit_rejects_non_form one_word demo_user rejects (assign props_box 5) start).
  intros e [= <-]. discriminate.
Defined.



(** X12, witness: with the default hooks [setup] returns [true]. *)
Lemma setup_order_witness :
  exists u s1 u' s2,
    call_enable demo_user Default plain_config (bound plain_config start) = Ret u s1 /\
    call_onInit demo_user Default plain_config s1 = Ret u' s2 /\
    setup demo_user plain_config start = Ret true s2.
Proof.
  eexists _, _, _, _.
  split; [vm_compute; reflexivity |]. split; [vm_compute; reflexivity |].
  exact (proj2 (proj2 (setup_order demo_user plain_config start) _ _ eq_refl)
           _ _ eq_refl).
Defined.

(** X13, witness: binding the form of the page that holds a disabled
    button. *)
Lemma init_binds_form_witness :
  exists s',
    init demo_user demo_querySelector props_form start_locked = Ret true s' /\
    disabled <$> dom (world s') !! 6%nat = Some false /\
    (submitListeners <$> dom (world s') !! 1%nat)
      = Some [SubmitListener (assign props_form 1)].
Proof.
  destruct (init_binds_form demo_user demo_querySelector props_form start_locked
              "f1" 1%nat (element "FORM" (Some 0%nat))
              eq_refl ltac:(discriminate) eq_refl eq_refl eq_refl eq_refl eq_refl)
    as (s' & Hinit & Hdom & _ & _).
  exists s'. split; [exact Hinit |]. rewrite Hdom. split; reflexivity.
Defined.

(** X14, witness: nothing given, and a selector that finds nothing. *)
Lemma init_error_messages_witness :
  init demo_user demo_querySelector props_empty start =
    Throw (VError "You must define an `id` property") start /\
  init demo_user demo_querySelector props_none start =
    Throw (VError "Element `#none` not found") start.
Proof.
  split.
  - apply (proj1 (init_error_messages demo_user demo_querySelector props_empty start)).
    left. reflexivity.
  - apply (proj2 (proj2 (init_error_messages demo_user demo_querySelector
                           props_none start)) "f1" "#none");
      first [reflexivity | discriminate].
Defined.

(** X15, witness: the [div] of the page given by reference is not a form; its
    string is no selector. *)
Lemma init_invalid_selector_witness :
  toString (dom (world start)) (Node 5) = "[object HTMLElement]" /\
  init demo_user picky_querySelector props_div start
    = Throw (VError "SyntaxError") start.
Proof.
  split; [reflexivity |].
  apply (init_invalid_selector demo_user picky_querySelector props_div start
           "f1" (Node 5) (VError "SyntaxError"));
    first [reflexivity | discriminate].
Defined.

(** X16, witness: the listener on the demonstration page. *)
Lemma listener_prevents_default_witness :
  exists s',
    run_listener one_word demo_user rejects (SubmitListener plain_config) start
      = Ret true s' /\
    head (calls s') = Some PreventDefault.
Proof.
  destruct (run_listener one_word demo_user rejects (SubmitListener plain_config) start)
    as [b s'|v s'] eqn:Hrun; [| vm_compute in Hrun; discriminate Hrun].
  destruct (listener_prevents_default one_word demo_user rejects plain_config start)
    as [(l & Hl & _) Hb].
  rewrite (Hb b s' Hrun) in *. exists s'. split; [reflexivity |].
  unfold new_calls, exec in Hl. rewrite Hrun in Hl.
  change (calls s' = PreventDefault :: l) in Hl. rewrite Hl. reflexivity.
Defined.


(** X18, witness: the plain configuration and a client whose call fails. *)
Lemma page_after_transport_failure_witness :
  exists formData s1 s2 s',
    prologue one_word demo_user plain_config start = Ret formData s1 /\
    await_submitForm rejects (request plain_config formData) s1
      = Throw (VError "network") s2 /\
    submit one_word demo_user rejects plain_config start = Ret tt s' /\
    dom (world s') = set_buttons false 1 (dom (world s2)).
Proof.
  destruct (page_after_transport_failure one_word demo_user rejects plain_config start
              _ _ _ _ eq_refl eq_refl eq_refl) as (s' & H1 & H2 & _).
  eexists _, _, _, s'.
  split; [reflexivity |]. split; [reflexivity |]. split; [exact H1 | exact H2].
Defined.
